(** * TIS Validation Tool: a shallow embedding of the form client and the
      submission service, and the properties of the specification proved
      (or refuted) on it.

    Sources embedded here:
    - the React component [TISValidationTool] (field validators, overall
      form validity, draft persistence, submit handler);
    - [apiService.submitForm] (POST with retry);
    - the Express server (schema [formSubmissionSchema], [sanitizeInput],
      the handlers of [/api/submissions] and [/api/submissions/:id]).

    JavaScript strings are sequences of UTF-16 code units; they are modelled
    as lists of [N].  Messages fixed by the program are Rocq strings. *)

From Stdlib Require Import String Ascii.
From Stdlib Require Import List NArith ZArith Bool Lia Arith.
From stdpp Require Import gmap sorting.
Import ListNotations.

(* ================================================================== *)
(** * Part I: definitions                                              *)
(* ================================================================== *)

(** ** JavaScript strings and the built-ins the program calls *)

Module JS.

(** A string: its UTF-16 code units. *)
Abbreviation jsstring := (list N) (only parsing).

(** A string literal of the source, as its code units (ASCII only). *)
Definition js (s : string) : jsstring :=
  map N_of_ascii (list_ascii_of_string s).

Definition eqb (a b : jsstring) : bool :=
  bool_decide (a = b).

(** [!value] is false exactly for the non-empty strings. *)
Definition truthy (s : jsstring) : bool :=
  match s with [] => false | _ :: _ => true end.

Definition in_range (lo hi c : N) : bool := (lo <=? c)%N && (c <=? hi)%N.

Definition isUpper (c : N) : bool := in_range 65 90 c.
Definition isLower (c : N) : bool := in_range 97 122 c.
Definition isDigit (c : N) : bool := in_range 48 57 c.

(** WhiteSpace and LineTerminator of ECMAScript: what [\s] matches and
    what [String.prototype.trim] removes. *)
Definition isSpace (c : N) : bool :=
  in_range 9 13 c || (c =? 32)%N || (c =? 160)%N || (c =? 5760)%N
  || in_range 8192 8202 c || (c =? 8232)%N || (c =? 8233)%N
  || (c =? 8239)%N || (c =? 8287)%N || (c =? 12288)%N || (c =? 65279)%N.

Fixpoint dropWhile (p : N -> bool) (s : jsstring) : jsstring :=
  match s with
  | [] => []
  | c :: t => if p c then dropWhile p t else s
  end.

Definition trimStart (s : jsstring) : jsstring := dropWhile isSpace s.
Definition trimEnd (s : jsstring) : jsstring :=
  rev (dropWhile isSpace (rev s)).

(** [String.prototype.trim] *)
Definition trim (s : jsstring) : jsstring := trimEnd (trimStart s).

(** [s.replace(/c/g, rep)] for a one-character pattern. *)
Definition replaceAll (c : N) (rep : jsstring) (s : jsstring) : jsstring :=
  flat_map (fun x => if (x =? c)%N then rep else [x]) s.

(** The value of a digit in a radix, letters counting from ten. *)
Definition digitVal (radix : N) (c : N) : option N :=
  let v :=
    if isDigit c then Some (c - 48)%N
    else if isLower c then Some (c - 97 + 10)%N
    else if isUpper c then Some (c - 65 + 10)%N
    else None in
  match v with
  | Some d => if (d <? radix)%N then Some d else None
  | None => None
  end.

Fixpoint digits (radix : N) (s : jsstring) (acc : option N) : option N :=
  match s with
  | [] => acc
  | c :: t =>
      match digitVal radix c with
      | Some d =>
          digits radix t
            (Some (match acc with Some a => a * radix + d | None => d end)%N)
      | None => acc
      end
  end.

(** [parseInt(s)] with no radix given: leading white space is skipped, an
    optional sign is read, a [0x] prefix switches to radix 16, and the
    longest run of digits is the value; [None] is NaN.  Integers are exact
    here (a JavaScript number is, below 2^53). *)
Definition parseInt (s : jsstring) : option Z :=
  let s1 := trimStart s in
  let '(neg, s2) :=
    match s1 with
    | 45 :: t => (true, t)
    | 43 :: t => (false, t)
    | _ => (false, s1)
    end%N in
  let '(radix, s3) :=
    match s2 with
    | 48 :: 120 :: t => (16, t)
    | 48 :: 88 :: t => (16, t)
    | _ => (10, s2)
    end%N in
  match digits radix s3 None with
  | Some n => Some (if neg then (- Z.of_N n)%Z else Z.of_N n)
  | None => None
  end.

(** [parseInt(q) || d], where an absent query parameter is [undefined]. *)
Definition parseInt_or (q : option jsstring) (d : Z) : Z :=
  match q with
  | None => d
  | Some s =>
      match parseInt s with
      | Some 0%Z => d
      | Some n => n
      | None => d
      end
  end.

End JS.

Import JS.

(** ** Regular expressions, as far as the program's patterns need them *)

Module RegExp.

Inductive regex : Type :=
| Void
| Eps
| Cls (p : N -> bool)
| Cat (r s : regex)
| Alt (r s : regex)
| Star (r : regex).

(** [r+], [r?], [r{0,k}] and [r{m,m+k}] *)
Definition Plus (r : regex) : regex := Cat r (Star r).
Definition Opt (r : regex) : regex := Alt r Eps.

Fixpoint Upto (k : nat) (r : regex) : regex :=
  match k with
  | O => Eps
  | S k' => Opt (Cat r (Upto k' r))
  end.

Fixpoint AtLeast (m k : nat) (r : regex) : regex :=
  match m with
  | O => Upto k r
  | S m' => Cat r (AtLeast m' k r)
  end.

(** [r{m,n}] *)
Definition Range (m n : nat) (r : regex) : regex := AtLeast m (n - m) r.

Definition Chr (c : N) : regex := Cls (N.eqb c).

Fixpoint Lit (s : jsstring) : regex :=
  match s with
  | [] => Eps
  | c :: t => Cat (Chr c) (Lit t)
  end.

Fixpoint nullable (r : regex) : bool :=
  match r with
  | Void => false
  | Eps => true
  | Cls _ => false
  | Cat r s => nullable r && nullable s
  | Alt r s => nullable r || nullable s
  | Star _ => true
  end.

Fixpoint deriv (c : N) (r : regex) : regex :=
  match r with
  | Void => Void
  | Eps => Void
  | Cls p => if p c then Eps else Void
  | Cat r s =>
      if nullable r then Alt (Cat (deriv c r) s) (deriv c s)
      else Cat (deriv c r) s
  | Alt r s => Alt (deriv c r) (deriv c s)
  | Star r => Cat (deriv c r) (Star r)
  end.

Fixpoint derivs (s : jsstring) (r : regex) : regex :=
  match s with
  | [] => r
  | c :: t => derivs t (deriv c r)
  end.

(** [/^r$/.test(s)]: the pattern is anchored at both ends and has no
    flags, so the test is membership of the whole string. *)
Definition test (r : regex) (s : jsstring) : bool := nullable (derivs s r).

(** The language of a pattern, as the pattern reads. *)
Inductive lang : regex -> jsstring -> Prop :=
| lang_eps : lang Eps []
| lang_cls p c : p c = true -> lang (Cls p) [c]
| lang_cat r s u v : lang r u -> lang s v -> lang (Cat r s) (u ++ v)
| lang_alt_l r s u : lang r u -> lang (Alt r s) u
| lang_alt_r r s u : lang s u -> lang (Alt r s) u
| lang_star_nil r : lang (Star r) []
| lang_star_app r u v :
    lang r u -> lang (Star r) v -> lang (Star r) (u ++ v).

End RegExp.

Import RegExp.

(** ** [src/models/FormSubmission.ts]: the shapes shared by both sides *)

Module Model.

Record IFormData := mkFormData {
  name : jsstring;
  productLine : jsstring;
  erCode : jsstring;
  description : jsstring;
  modelNumber : jsstring
}.

Record IValidationResult := mkResult { isValid : bool; message : string }.

(** An identifier of the store (a 12-byte ObjectId, as a number). *)
Abbreviation ObjectId := N (only parsing).

(** A persisted document: the five fields, the identifier the store
    gives it and the [Date] it was submitted at (milliseconds). *)
Record IFormSubmission := mkSubmission {
  _id : ObjectId;
  fields : IFormData;
  submittedAt : Z
}.

(** [Object.values(formData)] *)
Definition values (fd : IFormData) : list jsstring :=
  [name fd; productLine fd; erCode fd; description fd; modelNumber fd].

End Model.

Import Model.

(** ** JSON text: [JSON.stringify] of a field map, and [JSON.parse] *)

Module Json.

Local Open Scope N_scope.

Local Unset Elimination Schemes.

Inductive json : Type :=
| JNull
| JBool (b : bool)
| JNum (lexeme : jsstring)
| JStr (s : jsstring)
| JArr (items : list json)
| JObj (members : list (jsstring * json)).

Local Set Elimination Schemes.

Definition isHigh (c : N) : bool := in_range 55296 56319 c.
Definition isLow (c : N) : bool := in_range 56320 57343 c.

Definition hexDigit (d : N) : N := if (d <? 10)%N then 48 + d else 87 + d.

(** [\uXXXX] with lower-case digits *)
Definition unicodeEscape (c : N) : jsstring :=
  [92; 117; hexDigit ((c / 4096) mod 16); hexDigit ((c / 256) mod 16);
   hexDigit ((c / 16) mod 16); hexDigit (c mod 16)]%N.

(** One code unit that is not part of a surrogate pair. *)
Definition quoteUnit (c : N) : jsstring :=
  if (c =? 8)%N then [92; 98]
  else if (c =? 9)%N then [92; 116]
  else if (c =? 10)%N then [92; 110]
  else if (c =? 12)%N then [92; 102]
  else if (c =? 13)%N then [92; 114]
  else if (c =? 34)%N then [92; 34]
  else if (c =? 92)%N then [92; 92]
  else if (c <? 32)%N || isHigh c || isLow c then unicodeEscape c
  else [c].

(** The characters between the quotes (QuoteJSONString): a surrogate
    pair is copied, a lone surrogate is escaped. *)
Fixpoint quoteBody (s : jsstring) : jsstring :=
  match s with
  | [] => []
  | h :: t =>
      if isHigh h then
        match t with
        | l :: t' =>
            if isLow l then h :: l :: quoteBody t'
            else unicodeEscape h ++ quoteBody t
        | [] => unicodeEscape h
        end
      else quoteUnit h ++ quoteBody t
  end.

Definition quote (s : jsstring) : jsstring := [34%N] ++ quoteBody s ++ [34%N].

Definition member (kv : jsstring * jsstring) : jsstring :=
  quote (fst kv) ++ [58%N] ++ quote (snd kv).

Fixpoint members (l : list (jsstring * jsstring)) : jsstring :=
  match l with
  | [] => []
  | [kv] => member kv
  | kv :: rest => member kv ++ [44%N] ++ members rest
  end.

(** [JSON.stringify(o)] for an object [o] whose own enumerable properties,
    in order, are [l], all with string values. *)
Definition stringifyObject (l : list (jsstring * jsstring)) : jsstring :=
  [123%N] ++ members l ++ [125%N].

(** *** Parsing *)

Definition isWs (c : N) : bool :=
  (c =? 32)%N || (c =? 9)%N || (c =? 10)%N || (c =? 13)%N.

Definition skipWs (s : jsstring) : jsstring := dropWhile isWs s.

Definition hexVal (c : N) : option N := digitVal 16 c.

Definition hex4Val (a b c d : N) : option N :=
  match hexVal a, hexVal b, hexVal c, hexVal d with
  | Some x, Some y, Some z, Some w =>
      Some (x * 4096 + y * 256 + z * 16 + w)%N
  | _, _, _, _ => None
  end.

(** The character a two-character escape stands for. *)
Definition unescape (e : N) : option N :=
  if (e =? 34)%N then Some 34
  else if (e =? 92)%N then Some 92
  else if (e =? 47)%N then Some 47
  else if (e =? 98)%N then Some 8
  else if (e =? 102)%N then Some 12
  else if (e =? 110)%N then Some 10
  else if (e =? 114)%N then Some 13
  else if (e =? 116)%N then Some 9
  else None.

Definition consFst (c : N) (r : option (jsstring * jsstring)) :
  option (jsstring * jsstring) :=
  match r with
  | Some (s, rest) => Some (c :: s, rest)
  | None => None
  end.

(** The rest of a string token, after its opening quote: the string and
    the text that follows the closing quote. *)
Fixpoint parseChars (s : jsstring) : option (jsstring * jsstring) :=
  match s with
  | [] => None
  | c :: t =>
      if (c =? 34)%N then Some ([], t)
      else if (c =? 92)%N then
        match t with
        | [] => None
        | e :: r =>
            if (e =? 117)%N then
              match r with
              | a :: b :: c' :: d :: r' =>
                  match hex4Val a b c' d with
                  | Some v => consFst v (parseChars r')
                  | None => None
                  end
              | _ => None
              end
            else
              match unescape e with
              | Some v => consFst v (parseChars r)
              | None => None
              end
        end
      else if (c <? 32)%N then None
      else consFst c (parseChars t)
  end.

(** A JSON number: an optional minus sign, an integer part without a
    leading zero, an optional fraction, an optional exponent. *)
Definition number_re : regex :=
  Cat (Opt (Chr 45))
    (Cat (Alt (Chr 48) (Cat (Cls (in_range 49 57)) (Star (Cls isDigit))))
       (Cat (Opt (Cat (Chr 46) (Plus (Cls isDigit))))
          (Opt (Cat (Cls (fun c => (c =? 101)%N || (c =? 69)%N))
                  (Cat (Opt (Cls (fun c => (c =? 43)%N || (c =? 45)%N)))
                     (Plus (Cls isDigit))))))).

Definition isNumChar (c : N) : bool :=
  isDigit c || (c =? 45)%N || (c =? 43)%N || (c =? 46)%N
  || (c =? 101)%N || (c =? 69)%N.

Fixpoint span (p : N -> bool) (s : jsstring) : jsstring * jsstring :=
  match s with
  | [] => ([], [])
  | c :: t =>
      if p c then let '(a, b) := span p t in (c :: a, b) else ([], s)
  end.

Fixpoint stripPrefix (p s : jsstring) : option jsstring :=
  match p, s with
  | [], _ => Some s
  | _ :: _, [] => None
  | a :: p', b :: s' => if (a =? b)%N then stripPrefix p' s' else None
  end.

(** A value, and the text after it.  The fuel bounds the calls; every
    call consumes a character, so the length of the text is enough. *)
Fixpoint parseValue (fuel : nat) (s : jsstring) : option (json * jsstring) :=
  match fuel with
  | O => None
  | S f =>
      match skipWs s with
      | [] => None
      | c :: t =>
          if (c =? 34)%N then
            match parseChars t with
            | Some (str, r) => Some (JStr str, r)
            | None => None
            end
          else if (c =? 123)%N then
            match skipWs t with
            | c1 :: r1 =>
                if (c1 =? 125)%N then Some (JObj [], r1)
                else
                  match parseMembers f t with
                  | Some (ms, r) => Some (JObj ms, r)
                  | None => None
                  end
            | [] => None
            end
          else if (c =? 91)%N then
            match skipWs t with
            | c1 :: r1 =>
                if (c1 =? 93)%N then Some (JArr [], r1)
                else
                  match parseItems f t with
                  | Some (xs, r) => Some (JArr xs, r)
                  | None => None
                  end
            | [] => None
            end
          else if isNumChar c then
            let '(lexeme, r) := span isNumChar (c :: t) in
            if test number_re lexeme then Some (JNum lexeme, r) else None
          else
            match stripPrefix (js "true") (c :: t) with
            | Some r => Some (JBool true, r)
            | None =>
                match stripPrefix (js "false") (c :: t) with
                | Some r => Some (JBool false, r)
                | None =>
                    match stripPrefix (js "null") (c :: t) with
                    | Some r => Some (JNull, r)
                    | None => None
                    end
                end
            end
      end
  end

with parseMembers (fuel : nat) (s : jsstring) :
  option (list (jsstring * json) * jsstring) :=
  match fuel with
  | O => None
  | S f =>
      match skipWs s with
      | c :: t =>
          if (c =? 34)%N then
            match parseChars t with
            | Some (key, r) =>
                match skipWs r with
                | c1 :: r1 =>
                    if (c1 =? 58)%N then
                      match parseValue f r1 with
                      | Some (v, r2) =>
                          match skipWs r2 with
                          | c2 :: r3 =>
                              if (c2 =? 125)%N then Some ([(key, v)], r3)
                              else if (c2 =? 44)%N then
                                match parseMembers f r3 with
                                | Some (ms, r4) => Some ((key, v) :: ms, r4)
                                | None => None
                                end
                              else None
                          | [] => None
                          end
                      | None => None
                      end
                    else None
                | [] => None
                end
            | None => None
            end
          else None
      | [] => None
      end
  end

with parseItems (fuel : nat) (s : jsstring) :
  option (list json * jsstring) :=
  match fuel with
  | O => None
  | S f =>
      match parseValue f s with
      | Some (v, r) =>
          match skipWs r with
          | c :: r1 =>
              if (c =? 93)%N then Some ([v], r1)
              else if (c =? 44)%N then
                match parseItems f r1 with
                | Some (xs, r2) => Some (v :: xs, r2)
                | None => None
                end
              else None
          | [] => None
          end
      | None => None
      end
  end.

(** [JSON.parse(text)]; [None] is the SyntaxError it throws. *)
Definition parse (text : jsstring) : option json :=
  match parseValue (S (length text)) text with
  | Some (v, r) => match skipWs r with [] => Some v | _ :: _ => None end
  | None => None
  end.

(** [o[key]] for a parsed object: a later duplicate replaces an earlier
    one. *)
Fixpoint get (key : jsstring) (ms : list (jsstring * json)) : option json :=
  match ms with
  | [] => None
  | (k, v) :: rest =>
      match get key rest with
      | Some v' => Some v'
      | None => if JS.eqb k key then Some v else None
      end
  end.

End Json.

Import Json.

(** ** The form component [TISValidationTool] and [apiService] (client) *)

Module Client.

(** [/^[a-zA-Z\s]+$/] *)
Definition name_re : regex :=
  Plus (Cls (fun c => isLower c || isUpper c || isSpace c)).

(** [/^[A-Z]{2,4}-[0-9]{2,4}$/] *)
Definition productLine_re : regex :=
  Cat (Range 2 4 (Cls isUpper)) (Cat (Chr 45) (Range 2 4 (Cls isDigit))).

(** [/^ER[0-9]{6}$/] *)
Definition erCode_re : regex :=
  Cat (Lit (js "ER")) (Range 6 6 (Cls isDigit)).

(** [/^[A-Z]{2}[0-9]{4}[A-Z]?$/] *)
Definition modelNumber_re : regex :=
  Cat (Range 2 2 (Cls isUpper))
      (Cat (Range 4 4 (Cls isDigit)) (Opt (Cls isUpper))).

Definition validateName (value : jsstring) : IValidationResult :=
  if negb (truthy value) then mkResult false "Name is required"
  else if length value <? 2
  then mkResult false "Name must be at least 2 characters"
  else if negb (test name_re value)
  then mkResult false "Name can only contain letters and spaces"
  else mkResult true "Valid name format".

Definition validateProductLine (value : jsstring) : IValidationResult :=
  if negb (truthy value) then mkResult false "Product Line is required"
  else if length value <? 3
  then mkResult false "Product Line must be at least 3 characters"
  else if negb (test productLine_re value)
  then mkResult false "Format: XX-99 (2-4 letters, dash, 2-4 numbers)"
  else mkResult true "Valid product line format".

Definition validateERCode (value : jsstring) : IValidationResult :=
  if negb (truthy value) then mkResult false "ER Code is required"
  else if negb (test erCode_re value)
  then mkResult false "Format: ER followed by 6 digits (e.g., ER123456)"
  else mkResult true "Valid ER code format".

Definition validateDescription (value : jsstring) : IValidationResult :=
  if negb (truthy value) then mkResult false "Description is required"
  else if length value <? 10
  then mkResult false "Description must be at least 10 characters"
  else if 500 <? length value
  then mkResult false "Description must be less than 500 characters"
  else mkResult true "Valid description length".

Definition validateModelNumber (value : jsstring) : IValidationResult :=
  if negb (truthy value) then mkResult false "Model Number is required"
  else if negb (test modelNumber_re value)
  then mkResult false
         "Format: 2 letters + 4 digits + optional letter (e.g., AB1234C)"
  else mkResult true "Valid model number format".

(** [Object.values(validations)] *)
Definition validations (fd : IFormData) : list IValidationResult :=
  [validateName (name fd); validateProductLine (productLine fd);
   validateERCode (erCode fd); validateDescription (description fd);
   validateModelNumber (modelNumber fd)].

(** The value the validity effect gives [isFormValid]. *)
Definition allValid (fd : IFormData) : bool :=
  forallb isValid (validations fd)
  && forallb (fun v => negb (JS.eqb (trim v) [])) (values fd).

Definition getValidFieldsCount (fd : IFormData) : nat :=
  length (filter isValid (validations fd)).

(** *** Component state and the browser around it *)

Definition emptyForm : IFormData := mkFormData [] [] [] [] [].

Record State := mkState {
  formData : IFormData;
  isFormValid : bool;
  isSubmitted : bool;
  isDraftSaved : bool;
  hasDraft : bool;
  isSubmitting : bool
}.

Definition initialState : State :=
  mkState emptyForm false false false false false.

Inductive ToastKind := ToastSuccess | ToastError.

Inductive TimerAction := ResetDraftSaved | RetryWait.

(** What [submitForm] posts: the form data and the client's [new Date()]. *)
Record PostBody := mkPost { payload : IFormData; clientSubmittedAt : Z }.

Record Env := mkEnv {
  localStorage : gmap string jsstring;
  writable : bool;          (* false: [setItem] throws (quota, privacy mode) *)
  toasts : list (ToastKind * string * string);
  timers : list (Z * TimerAction);   (* delays passed to [setTimeout] *)
  now : Z;                           (* what [new Date()] reads *)
  sent : list PostBody               (* requests posted, latest first *)
}.

Definition DRAFT_KEY : string := "tis-validation-draft".

Definition setStorage (m : gmap string jsstring) (e : Env) : Env :=
  mkEnv m (writable e) (toasts e) (timers e) (now e) (sent e).
Definition toast (k : ToastKind) (title text : string) (e : Env) : Env :=
  mkEnv (localStorage e) (writable e) ((k, title, text) :: toasts e)
    (timers e) (now e) (sent e).
Definition setTimeout (a : TimerAction) (ms : Z) (e : Env) : Env :=
  mkEnv (localStorage e) (writable e) (toasts e) ((ms, a) :: timers e)
    (now e) (sent e).
Definition post (b : PostBody) (e : Env) : Env :=
  mkEnv (localStorage e) (writable e) (toasts e) (timers e) (now e)
    (b :: sent e).
(** Awaiting a timer of [ms] milliseconds. *)
Definition sleep (ms : Z) (e : Env) : Env :=
  let e' := setTimeout RetryWait ms e in
  mkEnv (localStorage e') (writable e') (toasts e') (timers e')
    (now e' + ms)%Z (sent e').

(** The effect on [formData]: recompute [isFormValid], and reset the
    saved flag. *)
Definition validityEffect (s : State) : State :=
  mkState (formData s) (allValid (formData s)) (isSubmitted s)
    (if isDraftSaved s then false else isDraftSaved s)
    (hasDraft s) (isSubmitting s).

Definition setFormData (fd : IFormData) (s : State) : State :=
  validityEffect
    (mkState fd (isFormValid s) (isSubmitted s) (isDraftSaved s)
       (hasDraft s) (isSubmitting s)).

Inductive Field := FName | FProductLine | FErCode | FDescription | FModelNumber.

(** [{...prev, [name]: value}] *)
Definition setField (f : Field) (value : jsstring) (fd : IFormData) :
  IFormData :=
  match f with
  | FName =>
      mkFormData value (productLine fd) (erCode fd) (description fd)
        (modelNumber fd)
  | FProductLine =>
      mkFormData (name fd) value (erCode fd) (description fd)
        (modelNumber fd)
  | FErCode =>
      mkFormData (name fd) (productLine fd) value (description fd)
        (modelNumber fd)
  | FDescription =>
      mkFormData (name fd) (productLine fd) (erCode fd) value
        (modelNumber fd)
  | FModelNumber =>
      mkFormData (name fd) (productLine fd) (erCode fd) (description fd)
        value
  end.

Definition handleInputChange (f : Field) (value : jsstring) (s : State) :
  State :=
  let s1 := setFormData (setField f value (formData s)) s in
  mkState (formData s1) (isFormValid s1) false (isDraftSaved s1)
    (hasDraft s1) (isSubmitting s1).

(** *** Draft persistence *)

(** [Object.entries(formData)] *)
Definition entries (fd : IFormData) : list (jsstring * jsstring) :=
  [(js "name", name fd); (js "productLine", productLine fd);
   (js "erCode", erCode fd); (js "description", description fd);
   (js "modelNumber", modelNumber fd)].

(** [JSON.stringify(formData)] *)
Definition stringify (fd : IFormData) : jsstring :=
  stringifyObject (entries fd).

Definition handleSaveDraft (s : State) (e : Env) : State * Env :=
  if writable e then
    let e1 := setStorage (<[DRAFT_KEY := stringify (formData s)]>
                            (localStorage e)) e in
    let s1 := mkState (formData s) (isFormValid s) (isSubmitted s) true
                true (isSubmitting s) in
    (s1, setTimeout ResetDraftSaved 3000
           (toast ToastSuccess "Draft Saved!"
              "Your progress has been preserved." e1))
  else
    (s, toast ToastError "Save Failed"
          "Unable to save draft. Please try again." e).

Definition handleClearDraft (s : State) (e : Env) : State * Env :=
  let s1 := setFormData emptyForm s in
  (mkState (formData s1) (isFormValid s1) false false false
     (isSubmitting s1),
   setStorage (delete DRAFT_KEY (localStorage e)) e).

(** The parsed draft as a field map, when it is an object with exactly
    the five keys, all strings. *)
Definition isFormKey (k : jsstring) : bool :=
  existsb (fun kv => JS.eqb (fst kv) k) (entries emptyForm).

Definition getString (key : string) (ms : list (jsstring * json)) :
  option jsstring :=
  match get (js key) ms with
  | Some (JStr v) => Some v
  | _ => None
  end.

Definition asFormData (j : json) : option IFormData :=
  match j with
  | JObj ms =>
      if forallb (fun kv => isFormKey (fst kv)) ms then
        match getString "name" ms, getString "productLine" ms,
              getString "erCode" ms, getString "description" ms,
              getString "modelNumber" ms with
        | Some a, Some b, Some c, Some d, Some m =>
            Some (mkFormData a b c d m)
        | _, _, _, _, _ => None
        end
      else None
  | _ => None
  end.

Inductive Loaded :=
| NoDraft                     (* nothing under the key *)
| Corrupt                     (* [JSON.parse] threw; logged and dropped *)
| Restored (fd : IFormData)
| Foreign (j : json).         (* parsed, but no field map of the form *)

Definition loadDraft (e : Env) : Loaded :=
  match localStorage e !! DRAFT_KEY with
  | None => NoDraft
  | Some savedDraft =>
      if truthy savedDraft then
        match parse savedDraft with
        | None => Corrupt
        | Some j =>
            match asFormData j with
            | Some fd => Restored fd
            | None => Foreign j
            end
        end
      else NoDraft
  end.

(** The two effects that run when the component mounts.  A [Foreign]
    draft would put a value that is no [IFormData] into the state; the
    model stops there. *)
Definition mount (e : Env) : option State :=
  match loadDraft e with
  | NoDraft | Corrupt => Some (validityEffect initialState)
  | Restored fd =>
      let s := setFormData fd initialState in
      Some (mkState (formData s) (isFormValid s) (isSubmitted s)
              (isDraftSaved s) true (isSubmitting s))
  | Foreign _ => None
  end.

(** *** [apiService.submitForm] *)

Record ErrorResponse := mkErrorResponse {
  status : Z;
  dataMessage : option string      (* [error.response.data.message] *)
}.

(** What a rejected request carries. *)
Record AxiosError := mkError {
  code : option string;            (* [error.code] *)
  errorMessage : string;           (* [error.message], empty when absent *)
  response : option ErrorResponse  (* [error.response] *)
}.

Inductive Outcome :=
| Resolved (stored : IFormSubmission)   (* [response.data.data] *)
| Rejected (err : AxiosError).

Module IApiResponse.
Record t := mk {
  success : bool;
  message : string;
  data : option IFormSubmission
}.
End IApiResponse.

Definition nonEmpty (s : string) : bool := negb (String.eqb s EmptyString).

Definition isNetworkError (err : AxiosError) : bool :=
  match code err with
  | Some c => String.eqb c "NETWORK_ERROR"
  | None => false
  end.

Definition genericMessage : string :=
  "Failed to submit form. Please try again later.".

(** The message of a failed submission. *)
Definition failureMessage (err : AxiosError) : string :=
  let fromServer :=
    match response err with
    | Some r => match dataMessage r with Some m => m | None => EmptyString end
    | None => EmptyString
    end in
  if nonEmpty fromServer then fromServer
  else if nonEmpty (errorMessage err) then errorMessage err
  else genericMessage.

Section SubmitForm.

(** The service as the client sees it: the outcome of the request,
    given how many requests were posted before it. *)
Variable respond : nat -> PostBody -> Outcome.

Fixpoint submitForm (formData : IFormData) (retries : nat) (e : Env) :
  IApiResponse.t * Env :=
  let body := mkPost formData (now e) in
  let e1 := post body e in
  match respond (length (sent e)) body with
  | Resolved stored =>
      (IApiResponse.mk true "Form submitted successfully" (Some stored),
       e1)
  | Rejected err =>
      match retries with
      | S retries' =>
          if isNetworkError err
          then submitForm formData retries' (sleep 1000 e1)
          else (IApiResponse.mk false (failureMessage err) None, e1)
      | O => (IApiResponse.mk false (failureMessage err) None, e1)
      end
  end.

(** The default of the [retries] parameter. *)
Definition defaultRetries : nat := 3.

Definition handleSubmit (s : State) (e : Env) : State * Env :=
  if isFormValid s then
    let '(result, e1) := submitForm (formData s) defaultRetries e in
    if IApiResponse.success result then
      (mkState (formData s) (isFormValid s) true (isDraftSaved s) false
         false,
       toast ToastSuccess "Form Submitted Successfully!"
         "Your data has been saved to the database."
         (setStorage (delete DRAFT_KEY (localStorage e1)) e1))
    else
      (mkState (formData s) (isFormValid s) (isSubmitted s)
         (isDraftSaved s) (hasDraft s) false,
       toast ToastError "Submission Failed" (IApiResponse.message result)
         e1)
  else (s, e).

(** What can happen to the mounted component. *)
Inductive Event :=
| Input (f : Field) (value : jsstring)   (* a field is edited *)
| SaveDraft
| ClearDraft
| Submit
| SavedFlagTimeout.                     (* the 3 s timer of the saved flag *)

Definition handle (ev : Event) (s : State) (e : Env) : State * Env :=
  match ev with
  | Input f value => (handleInputChange f value s, e)
  | SaveDraft => handleSaveDraft s e
  | ClearDraft => handleClearDraft s e
  | Submit => handleSubmit s e
  | SavedFlagTimeout =>
      (mkState (formData s) (isFormValid s) (isSubmitted s) false
         (hasDraft s) (isSubmitting s), e)
  end.

Fixpoint run (evs : list Event) (s : State) (e : Env) : State * Env :=
  match evs with
  | [] => (s, e)
  | ev :: rest => let '(s1, e1) := handle ev s e in run rest s1 e1
  end.

End SubmitForm.

End Client.

(** ** [validator.escape], as the server's sanitizer calls it *)

Module Validator.

(** The replacements, in the order the library applies them. *)
Definition escape (s : jsstring) : jsstring :=
  replaceAll 96 (js "&#96;")
    (replaceAll 92 (js "&#x5C;")
       (replaceAll 47 (js "&#x2F;")
          (replaceAll 62 (js "&gt;")
             (replaceAll 60 (js "&lt;")
                (replaceAll 39 (js "&#x27;")
                   (replaceAll 34 (js "&quot;")
                      (replaceAll 38 (js "&amp;") s))))))).

End Validator.

(** ** The submission service (server) *)

Module Server.

Local Open Scope string_scope.

(** *** The schema *)

(** The validators a String path of the schema declares. *)
Inductive PathValidator :=
| required (msg : string)
| minlength (n : nat) (msg : string)
| maxlength (n : nat) (msg : string)
| enum (values : list jsstring) (msg : string)
| validate (validator : jsstring -> bool) (msg : string).

Record Schema := mkSchema {
  s_name : list PathValidator;
  s_productLine : list PathValidator;
  s_erCode : list PathValidator;
  s_description : list PathValidator;
  s_modelNumber : list PathValidator
}.

Definition productLines : list jsstring :=
  map js
    ["12"; "13"; "15"; "24"; "25"; "45"; "80"; "1A"; "1B"; "1H"; "3E";
     "4W"; "8F"; "AE"; "AV"; "BL"; "CM"; "CN"; "DI"; "DT"; "EG"; "GM";
     "GM(EIP)"; "LB"; "MMA"; "NA"; "NS"; "NT"; "QB"; "QW"; "QX"; "SP";
     "TG"; "TJ"; "WN Kobe"; "WN PMPS"; "WN Soco"; "WN TAO"].

Definition formSubmissionSchema : Schema := {|
  s_name :=
    [required "Name is required";
     minlength 2 "Name must be at least 2 characters";
     maxlength 100 "Name must be less than 100 characters";
     validate (test Client.name_re)
       "Name can only contain letters and spaces"];
  s_productLine :=
    [required "Product Line is required";
     enum productLines "Please select a valid product line"];
  s_erCode :=
    [required "ER Code is required";
     validate (test Client.erCode_re)
       "ER Code format must be ER followed by 6 digits"];
  s_description :=
    [required "Description is required";
     minlength 10 "Description must be at least 10 characters";
     maxlength 500 "Description must be less than 500 characters"];
  s_modelNumber :=
    [required "Model Number is required";
     validate (test Client.modelNumber_re)
       "Model Number format must be 2 letters + 4 digits + optional letter"]
|}.

(** The message of a validator the value violates.  An absent value
    ([None]) violates [required] only; the other validators skip it. *)
Definition violation (v : PathValidator) (value : option jsstring) :
  option string :=
  match v, value with
  | required msg, None => Some msg
  | required msg, Some s => if truthy s then None else Some msg
  | _, None => None
  | minlength n msg, Some s => if (length s <? n)%nat then Some msg else None
  | maxlength n msg, Some s => if (n <? length s)%nat then Some msg else None
  | enum values msg, Some s =>
      if existsb (JS.eqb s) values then None else Some msg
  | validate f msg, Some s => if f s then None else Some msg
  end.

(** A path reports its first violated validator. *)
Fixpoint pathError (vs : list PathValidator) (value : option jsstring) :
  option string :=
  match vs with
  | [] => None
  | v :: rest =>
      match violation v value with
      | Some msg => Some msg
      | None => pathError rest value
      end
  end.

(** The messages of the paths that fail, in the order of the schema, for
    the five values of a document. *)
Definition pathErrors (sch : Schema)
  (n p e d m : option jsstring) : list string :=
  omap (fun pv => pathError (fst pv) (snd pv))
    [(s_name sch, n); (s_productLine sch, p); (s_erCode sch, e);
     (s_description sch, d); (s_modelNumber sch, m)].

(** [Object.values(error.errors).map(e => e.message)] for a document whose
    five fields are set. *)
Definition validationErrors (sch : Schema) (fd : IFormData) : list string :=
  pathErrors sch (Some (name fd)) (Some (productLine fd)) (Some (erCode fd))
    (Some (description fd)) (Some (modelNumber fd)).

(** *** Requests and responses *)

(** The JSON body of a POST: each key is absent or a string. *)
Record ReqBody := mkBody {
  b_name : option jsstring;
  b_productLine : option jsstring;
  b_erCode : option jsstring;
  b_description : option jsstring;
  b_modelNumber : option jsstring;
  b_submittedAt : option jsstring
}.

Record Pagination := mkPagination {
  current : Z;
  total : Z;
  hasMore : bool
}.

Inductive Body :=
| Stored (message : option string) (data : IFormSubmission)
    (* [{success: true, message?, data}] *)
| Listing (data : list IFormSubmission) (pagination : Pagination)
| Done (message : string)                 (* [{success: true, message}] *)
| Failure (message : string) (errors : option (list string))
    (error : option string).              (* [{success: false, ...}] *)

Record Response := mkResponse { status : Z; body : Body }.

(** *** The store *)

Inductive StoreCall :=
| CallInsert (doc : IFormSubmission)
| CallFind (skip limit : Z)
| CallCount
| CallFindById (id : ObjectId)
| CallFindByIdAndDelete (id : ObjectId).

Record World := mkWorld {
  docs : gmap ObjectId IFormSubmission;  (* the collection, by [_id] *)
  clock : Z;                 (* what [new Date()] reads *)
  nextId : ObjectId;         (* the identifier generated next *)
  fault : option string;     (* [Some m]: store calls fail with [Error(m)] *)
  calls : list StoreCall     (* the store calls issued, latest first *)
}.

Inductive Exn :=
| ValidationError (errors : list string)
| Error (message : string).

(** Handlers run in a state and exception monad over the world. *)
Definition M (A : Type) : Type := World -> (Exn + A) * World.

Definition ret {A} (a : A) : M A := fun w => (inr a, w).
Definition throw {A} (e : Exn) : M A := fun w => (inl e, w).
Definition bind {A B} (m : M A) (k : A -> M B) : M B :=
  fun w =>
    match m w with
    | (inr a, w') => k a w'
    | (inl e, w') => (inl e, w')
    end.
Definition tryCatch {A} (m : M A) (handler : Exn -> M A) : M A :=
  fun w =>
    match m w with
    | (inr a, w') => (inr a, w')
    | (inl e, w') => handler e w'
    end.

Notation "x <- m ;; k" := (bind m (fun x => k))
  (at level 100, m at next level, right associativity).
Notation "m ;; k" := (bind m (fun _ => k))
  (at level 100, right associativity).

Definition newDate : M Z := fun w => (inr (clock w), w).

Definition newObjectId : M ObjectId :=
  fun w =>
    (inr (nextId w),
     mkWorld (docs w) (clock w) (N.succ (nextId w)) (fault w) (calls w)).

(** A round trip to the store: logged, and failing when the store does. *)
Definition storeCall (c : StoreCall) : M unit :=
  fun w =>
    let w' := mkWorld (docs w) (clock w) (nextId w) (fault w) (c :: calls w) in
    match fault w with
    | Some m => (inl (Error m), w')
    | None => (inr tt, w')
    end.

Definition setDocs (d : gmap ObjectId IFormSubmission) : M unit :=
  fun w => (inr tt, mkWorld d (clock w) (nextId w) (fault w) (calls w)).

Definition getDocs : M (gmap ObjectId IFormSubmission) :=
  fun w => (inr (docs w), w).

(** [doc.save()]: the schema is checked first; the insert fails on an
    identifier that is already taken. *)
Definition save (doc : IFormSubmission) : M unit :=
  match validationErrors formSubmissionSchema (fields doc) with
  | (_ :: _) as errors => throw (ValidationError errors)
  | [] =>
      storeCall (CallInsert doc) ;;
      d <- getDocs ;;
      match d !! _id doc with
      | Some _ => throw (Error "E11000 duplicate key error")
      | None => setDocs (<[_id doc := doc]> d)
      end
  end.

(** Newest first. *)
Definition newerOrEqual (a b : IFormSubmission) : Prop :=
  (submittedAt b <= submittedAt a)%Z.

#[global] Instance newerOrEqual_dec : RelDecision newerOrEqual.
Proof. intros a b. unfold newerOrEqual. apply _. Defined.

Definition sorted (d : gmap ObjectId IFormSubmission) : list IFormSubmission :=
  merge_sort newerOrEqual (map snd (map_to_list d)).

(** [find().sort({submittedAt: -1}).skip(skip).limit(limit)]: the store
    rejects a negative skip; a negative limit counts as its absolute
    value and zero as no limit. *)
Definition find (skip limit : Z) : M (list IFormSubmission) :=
  storeCall (CallFind skip limit) ;;
  d <- getDocs ;;
  if (skip <? 0)%Z then throw (Error "skip value must be non-negative")
  else
    let rest := drop (Z.to_nat skip) (sorted d) in
    ret (if (limit =? 0)%Z then rest else take (Z.to_nat (Z.abs limit)) rest).

Definition countDocuments : M Z :=
  storeCall CallCount ;;
  d <- getDocs ;;
  ret (Z.of_nat (size d)).

Definition findById (id : ObjectId) : M (option IFormSubmission) :=
  storeCall (CallFindById id) ;;
  d <- getDocs ;;
  ret (d !! id).

Definition findByIdAndDelete (id : ObjectId) : M (option IFormSubmission) :=
  storeCall (CallFindByIdAndDelete id) ;;
  d <- getDocs ;;
  match d !! id with
  | Some doc => setDocs (delete id d) ;; ret (Some doc)
  | None => ret None
  end.

(** *** The handlers *)

Definition json (st : Z) (b : Body) : M Response := ret (mkResponse st b).

Definition sanitize (v : jsstring) : jsstring := Validator.escape (trim v).

(** Every string value of the body is trimmed and escaped in place. *)
Definition sanitizeInput (b : ReqBody) : ReqBody :=
  mkBody (sanitize <$> b_name b) (sanitize <$> b_productLine b)
    (sanitize <$> b_erCode b) (sanitize <$> b_description b)
    (sanitize <$> b_modelNumber b) (sanitize <$> b_submittedAt b).

(** The five fields when none of them is absent or empty: the guard
    [!formData.name || ...] of the handler lets exactly these through. *)
Definition presentFields (b : ReqBody) : option IFormData :=
  match b_name b, b_productLine b, b_erCode b, b_description b,
        b_modelNumber b with
  | Some n, Some p, Some e, Some d, Some m =>
      if truthy n && truthy p && truthy e && truthy d && truthy m
      then Some (mkFormData n p e d m)
      else None
  | _, _, _, _, _ => None
  end.

(** [app.post('/api/submissions', sanitizeInput, ...)] *)
Definition createSubmission (req : ReqBody) : M Response :=
  let formData := sanitizeInput req in
  tryCatch
    (match presentFields formData with
     | None => json 400 (Failure "All fields are required" None None)
     | Some fd =>
         id <- newObjectId ;;
         date <- newDate ;;
         let newSubmission := mkSubmission id fd date in
         save newSubmission ;;
         json 201
           (Stored (Some "Form submitted successfully") newSubmission)
     end)
    (fun error =>
       match error with
       | ValidationError errors =>
           json 400 (Failure "Validation failed" (Some errors) None)
       | Error m =>
           json 500 (Failure "Failed to save form submission" None (Some m))
       end).

(** [Math.ceil(a / b)] for integers, [b] not zero. *)
Definition ceilDiv (a b : Z) : Z := (- ((- a) / b))%Z.

(** [app.get('/api/submissions', ...)] with the query parameters [page]
    and [limit], each absent or a string. *)
Definition listSubmissions (qpage qlimit : option jsstring) : M Response :=
  tryCatch
    (let page := parseInt_or qpage 1 in
     let limit := parseInt_or qlimit 10 in
     let skip := ((page - 1) * limit)%Z in
     submissions <- find skip limit ;;
     total <- countDocuments ;;
     json 200
       (Listing submissions
          (mkPagination page (ceilDiv total limit)
             (skip + Z.of_nat (length submissions) <? total)%Z)))
    (fun error =>
       let m := match error with
                | Error m => m
                | ValidationError _ => "Validation failed"
                end in
       json 500 (Failure "Failed to fetch submissions" None (Some m))).

Section ById.

(** [mongoose.Types.ObjectId.isValid] and the cast of a well-formed
    identifier to the [ObjectId] it denotes. *)
Variable isValid : jsstring -> bool.
Variable castId : jsstring -> ObjectId.

Definition errorText (error : Exn) : string :=
  match error with
  | Error m => m
  | ValidationError _ => "Validation failed"
  end.

(** [app.get('/api/submissions/:id', ...)] *)
Definition getSubmission (id : jsstring) : M Response :=
  tryCatch
    (if negb (isValid id)
     then json 400 (Failure "Invalid submission ID" None None)
     else
       submission <- findById (castId id) ;;
       match submission with
       | None => json 404 (Failure "Submission not found" None None)
       | Some doc => json 200 (Stored None doc)
       end)
    (fun error =>
       json 500
         (Failure "Failed to fetch submission" None
            (Some (errorText error)))).

(** [app.delete('/api/submissions/:id', ...)] *)
Definition deleteSubmission (id : jsstring) : M Response :=
  tryCatch
    (if negb (isValid id)
     then json 400 (Failure "Invalid submission ID" None None)
     else
       submission <- findByIdAndDelete (castId id) ;;
       match submission with
       | None => json 404 (Failure "Submission not found" None None)
       | Some _ => json 200 (Done "Submission deleted successfully")
       end)
    (fun error =>
       json 500
         (Failure "Failed to delete submission" None
            (Some (errorText error)))).

End ById.

End Server.


(** ** Notions the statements use, and concrete inputs *)

Module Notions.

Import Server.

Local Open Scope string_scope.

(** What the schema has against the values of a request body, absent
    ones included. *)
Definition schemaErrors (b : ReqBody) : list string :=
  pathErrors formSubmissionSchema (b_name b) (b_productLine b) (b_erCode b)
    (b_description b) (b_modelNumber b).

(** A field of the body that is there and not blank. *)
Definition present (v : option jsstring) : Prop :=
  exists s, v = Some s /\ trim s <> [].

(** The store answers, and the identifier generated next is free. *)
Definition storeReady (w : World) : Prop :=
  fault w = None /\ docs w !! nextId w = None.

(** Two bodies that differ at most in the [submittedAt] the client sent. *)
Definition sameFields (a b : ReqBody) : Prop :=
  b_name a = b_name b /\ b_productLine a = b_productLine b
  /\ b_erCode a = b_erCode b /\ b_description a = b_description b
  /\ b_modelNumber a = b_modelNumber b.

(** What the validity effect leaves behind. *)
Definition settled (s : Client.State) : Prop :=
  Client.isFormValid s = Client.allValid (Client.formData s).

(** The object [JSON.parse] makes of the text of a string-valued object. *)
Definition asJson (l : list (jsstring * jsstring)) : Json.json :=
  Json.JObj (map (fun kv => (fst kv, Json.JStr (snd kv))) l).

(** The two refusals of the handlers by identifier. *)
Definition invalidId : Response :=
  mkResponse 400 (Failure "Invalid submission ID" None None).

Definition notFound : Response :=
  mkResponse 404 (Failure "Submission not found" None None).

(** The world after one more store call. *)
Definition logged (c : StoreCall) (w : World) : World :=
  mkWorld (docs w) (clock w) (nextId w) (fault w) (c :: calls w).

(** The page the store returns. *)
Definition page_of (skip limit : Z) (d : gmap N IFormSubmission) :
  list IFormSubmission :=
  let rest := drop (Z.to_nat skip) (sorted d) in
  if (limit =? 0)%Z then rest else take (Z.to_nat (Z.abs limit)) rest.

(** The pattern [^[A-Za-z ]+$] of the specification's name rule. *)
Definition spec_name_re : regex :=
  Plus (Cls (fun c => isUpper c || isLower c || (c =? 32)%N)).

(** The class [[a-zA-Z\s]] of the program's name pattern. *)
Definition nameChar (c : N) : bool := isLower c || isUpper c || isSpace c.

(** The characters [validator.escape] rewrites. *)
Definition isSpecial (c : N) : bool :=
  existsb (N.eqb c) [38; 34; 39; 60; 62; 47; 92; 96]%N.

(** A character of a product line the client accepts. *)
Definition codeChar (c : N) : bool := isUpper c || isDigit c || (c =? 45)%N.

End Notions.

Module Samples.

Import Server.

Definition emptyWorld : World := mkWorld ∅ 1700000000000 1 None [].

Definition body (n p e d m : string) : ReqBody :=
  mkBody (Some (js n)) (Some (js p)) (Some (js e)) (Some (js d))
    (Some (js m)) (Some (js "2024-05-01T10:00:00.000Z")).

(** A body the server stores. *)
Definition goodBody : ReqBody :=
  body "Jane Doe" "GM(EIP)" "ER123456" "Fan blade R&D sample" "AB1234C".

(** The document the server makes of it in [emptyWorld]. *)
Definition goodDoc : IFormSubmission :=
  mkSubmission 1
    (mkFormData (js "Jane Doe") (js "GM(EIP)") (js "ER123456")
       (js "Fan blade R&amp;D sample") (js "AB1234C"))
    1700000000000.

(** The same with a five-digit code. *)
Definition shortCodeBody : ReqBody :=
  body "Jane Doe" "GM(EIP)" "ER12345" "Fan blade R&D sample" "AB1234C".

(** A body every field of which the client accepts. *)
Definition clientBody : ReqBody :=
  body "Jane Doe" "AB-1234" "ER123456" "Fan blade sample" "AB1234C".

(** No name, and a five-digit code. *)
Definition namelessBody : ReqBody :=
  mkBody None (Some (js "12")) (Some (js "ER12345"))
    (Some (js "Fan blade sample")) (Some (js "AB1234C")) None.

(** Twelve stored records, submitted one millisecond apart. *)
Definition docAt (i : N) : IFormSubmission :=
  mkSubmission i (fields goodDoc) (1700000000000 + Z.of_N i).

Definition twelveWorld : World :=
  mkWorld
    (list_to_map
       (map (fun i => (i, docAt i)) [1; 2; 3; 4; 5; 6; 7; 8; 9; 10; 11; 12]%N))
    1800000000000 13 None [].

(** The same store, not answering. *)
Definition faultyWorld : World :=
  mkWorld (docs twelveWorld) 1800000000000 13
    (Some "connection timed out"%string) [].

(** A browser with nothing stored and nothing sent. *)
Definition freshEnv : Client.Env :=
  Client.mkEnv ∅ true [] [] 1700000000000 [].

Definition networkError : Client.AxiosError :=
  Client.mkError (Some "NETWORK_ERROR"%string) "Network Error" None.


(** A 400 with the message of the validation failure. *)
Definition validationRejected : Client.AxiosError :=
  Client.mkError (Some "ERR_BAD_REQUEST"%string)
    "Request failed with status code 400"
    (Some (Client.mkErrorResponse 400 (Some "Validation failed"%string))).

(** A service that fails twice on the network and then stores. *)
Definition flakyService (n : nat) (b : Client.PostBody) : Client.Outcome :=
  match n with
  | 0 | 1 => Client.Rejected networkError
  | _ => Client.Resolved goodDoc
  end.


Definition filledForm : IFormData :=
  mkFormData (js "Jane Doe") (js "AB-1234") (js "ER123456")
    (js "Fan blade sample") (js "AB1234C").

(** A well-formed identifier: 24 hexadecimal digits (one instance of the
    validity test of the store's identifiers), and the number it denotes. *)
Definition hex24 (s : jsstring) : bool :=
  (length s =? 24)%nat && forallb (fun c => bool_decide (is_Some (digitVal 16 c))) s.

Definition hexNumber (s : jsstring) : N :=
  fold_left (fun a c => (a * 16 + default 0 (digitVal 16 c))%N) s 0%N.

(** [a], a tab, [b] *)
Definition tabbedName : jsstring := [97; 9; 98]%N.


End Samples.


(** ** The service as a whole: any sequence of requests *)

Module Service.

Import Server.

Inductive Request :=
| Create (b : ReqBody)                       (* POST /api/submissions *)
| ListPage (page limit : option jsstring)    (* GET /api/submissions *)
| GetById (id : jsstring)                    (* GET /api/submissions/:id *)
| DeleteById (id : jsstring).                (* DELETE /api/submissions/:id *)

Section Ids.

Variable isValid : jsstring -> bool.
Variable castId : jsstring -> ObjectId.

Definition serve (r : Request) : M Response :=
  match r with
  | Create b => createSubmission b
  | ListPage page limit => listSubmissions page limit
  | GetById id => getSubmission isValid castId id
  | DeleteById id => deleteSubmission isValid castId id
  end.

(** The requests are handled one after the other; the answers come back in
    the order of the requests. *)
Fixpoint serveAll (rs : list Request) (w : World) :
  list (Exn + Response) * World :=
  match rs with
  | [] => ([], w)
  | r :: rest =>
      let '(a, w1) := serve r w in
      let '(answers, w2) := serveAll rest w1 in
      (a :: answers, w2)
  end.

End Ids.

(** Every document is filed under its own identifier, identifiers not yet
    generated are free, and every document passes the schema. *)
Definition wellFormed (w : World) : Prop :=
  forall k d,
    docs w !! k = Some d ->
    _id d = k /\ (k < nextId w)%N
    /\ validationErrors formSubmissionSchema (fields d) = [].



End Service.

(** ** The client in front of the service *)

Module EndToEnd.

Import Server.

Local Open Scope string_scope.

Section Wire.

(** [Date.prototype.toJSON], and the text of the error axios raises for a
    status outside 2xx. *)
Variable toISOString : Z -> jsstring.
Variable failedText : Z -> string.

(** The JSON body axios sends for a payload. *)
Definition wire (b : Client.PostBody) : ReqBody :=
  let fd := Client.payload b in
  mkBody (Some (name fd)) (Some (productLine fd)) (Some (erCode fd))
    (Some (description fd)) (Some (modelNumber fd))
    (Some (toISOString (Client.clientSubmittedAt b))).

Definition is2xx (st : Z) : bool := (200 <=? st)%Z && (st <? 300)%Z.

Definition errorCode (st : Z) : string :=
  if (st <? 500)%Z then "ERR_BAD_REQUEST" else "ERR_BAD_RESPONSE".

(** What the promise of [apiClient.post] settles to for an answer of
    Create: resolved on a 2xx status, rejected otherwise.  Answers of a
    shape Create does not produce give [None]. *)
Definition postOutcome (r : Response) : option Client.Outcome :=
  match body r with
  | Stored _ d =>
      if is2xx (status r) then Some (Client.Resolved d) else None
  | Failure m _ _ =>
      if is2xx (status r) then None
      else
        Some (Client.Rejected
                (Client.mkError (Some (errorCode (status r)))
                   (failedText (status r))
                   (Some (Client.mkErrorResponse (status r) (Some m)))))
  | _ => None
  end.

End Wire.

End EndToEnd.


(** ** [apiService]: the wrappers of the read and delete requests *)

Module ApiReads.

Import Server.

Local Open Scope string_scope.



(** What the caller gets back. *)
Record Result (T : Type) := mkReadResult {
  success : bool;
  message : string;
  data : option T
}.

Arguments mkReadResult {T}.
Arguments success {T}.
Arguments message {T}.
Arguments data {T}.

(** The body of the answer when the promise resolves (a 2xx status);
    [None] when it rejects: no answer at all, or another status. *)
Definition resolved (answer : option Response) : option Body :=
  match answer with
  | Some r => if EndToEnd.is2xx (status r) then Some (body r) else None
  | None => None
  end.

(** [response.data.message], when the body has one. *)
Definition bodyMessage (b : Body) : option string :=
  match b with
  | Stored m _ => m
  | Listing _ _ => None
  | Done m => Some m
  | Failure m _ _ => Some m
  end.

(** [m || fallback] *)
Definition orElse (m : option string) (fallback : string) : string :=
  match m with
  | Some s => if Client.nonEmpty s then s else fallback
  | None => fallback
  end.

Section Transport.

(** The service behind [apiClient]: the answer to a GET of the listing
    with the two query values, and to a GET or DELETE of an identifier;
    [None] when no answer arrives. *)
Variable getList : jsstring -> jsstring -> option Response.
Variable getOne : jsstring -> option Response.
Variable deleteOne : jsstring -> option Response.



Definition deleteSubmission (id : jsstring) : Result unit :=
  match resolved (deleteOne id) with
  | Some b =>
      mkReadResult true
        (orElse (bodyMessage b) "Submission deleted successfully") None
  | None =>
      mkReadResult false
        "Failed to delete submission. Please try again later." None
  end.

End Transport.

(** The answer that reaches the client.  (The handlers catch what is
    thrown; an exception that escaped one would leave the request
    unanswered.) *)
Definition delivered (x : Exn + Response) : option Response :=
  match x with
  | inr r => Some r
  | inl _ => None
  end.


End ApiReads.


(** ** The wrappers' transport, wired to the service *)

Module Wired.

Import Server ApiReads.

Section Ids.

Variable isValid : list N -> bool.
Variable castId : list N -> N.
Variable w : World.

(** The service in the world [w], as the transport of the read and delete
    wrappers: the query strings are the ones the template literals write. *)
Definition getList (p l : list N) : option Response :=
  delivered (fst (listSubmissions (Some p) (Some l) w)).
Definition getOne (id : list N) : option Response :=
  delivered (fst (getSubmission isValid castId id w)).
Definition deleteOne (id : list N) : option Response :=
  delivered (fst (Server.deleteSubmission isValid castId id w)).

End Ids.

End Wired.

(* ================================================================== *)
(** * Part II: properties                                              *)
(* ================================================================== *)

Import Client Notions.

(** ** The pattern test decides the language of the pattern *)

Module RegExpFacts.

Lemma lang_void_inv w : lang Void w -> False.
Proof. intros H. inversion H. Qed.

Lemma lang_eps_inv w : lang Eps w -> w = [].
Proof. intros H. inversion H. reflexivity. Qed.

Lemma lang_cls_inv p w : lang (Cls p) w -> exists c, w = [c] /\ p c = true.
Proof. intros H. inversion H; subst. eauto. Qed.

Lemma lang_cat_inv r s w :
  lang (Cat r s) w -> exists u v, w = u ++ v /\ lang r u /\ lang s v.
Proof. intros H. inversion H; subst. eauto. Qed.

Lemma lang_alt_inv r s w : lang (Alt r s) w -> lang r w \/ lang s w.
Proof. intros H. inversion H; subst; auto. Qed.

Lemma nullable_spec r : nullable r = true <-> lang r [].
Proof.
  induction r as [| |p|r IHr s IHs|r IHr s IHs|r IHr]; simpl.
  - split; [discriminate|]. intros H. apply lang_void_inv in H; destruct H.
  - split; [constructor | reflexivity].
  - split; [discriminate|].
    intros H. apply lang_cls_inv in H as (c & Hc & _). discriminate.
  - rewrite andb_true_iff, IHr, IHs. split.
    + intros [Hr Hs]. apply (lang_cat _ _ [] []); assumption.
    + intros H. apply lang_cat_inv in H as (u & v & Heq & Hu & Hv).
      symmetry in Heq. apply app_eq_nil in Heq as [-> ->]. auto.
  - rewrite orb_true_iff, IHr, IHs. split.
    + intros [H|H]; [apply lang_alt_l | apply lang_alt_r]; exact H.
    + apply lang_alt_inv.
  - split; [constructor | reflexivity].
Qed.

(** A non-empty word of [r*] starts with a non-empty word of [r]. *)
Lemma lang_star_cons r c s :
  lang (Star r) (c :: s) ->
  exists u v, s = u ++ v /\ lang r (c :: u) /\ lang (Star r) v.
Proof.
  intros H. remember (Star r) as sr eqn:Hsr. remember (c :: s) as w eqn:Hw.
  induction H as [| | | | | |r' u v Hu _ Hv IHv]; try discriminate.
  injection Hsr as ->. destruct u as [|c' u'].
  - simpl in Hw. apply IHv; [reflexivity | exact Hw].
  - simpl in Hw. injection Hw as Hc Hs. subst c' s. exists u', v. auto.
Qed.

Lemma deriv_spec r : forall c s, lang (deriv c r) s <-> lang r (c :: s).
Proof.
  induction r as [| |p|r IHr q IHq|r IHr q IHq|r IHr]; intros c s; simpl.
  - split; intros H; apply lang_void_inv in H; destruct H.
  - split; intros H; [apply lang_void_inv in H; destruct H|].
    apply lang_eps_inv in H. discriminate.
  - destruct (p c) eqn:Hp; split; intros H.
    + apply lang_eps_inv in H as ->. constructor. exact Hp.
    + apply lang_cls_inv in H as (c' & Hc & _). injection Hc as -> ->.
      constructor.
    + apply lang_void_inv in H; destruct H.
    + apply lang_cls_inv in H as (c' & Hc & Hp'). injection Hc as -> ->.
      congruence.
  - assert (Hcat : lang (Cat (deriv c r) q) s -> lang (Cat r q) (c :: s)).
    { intros H. apply lang_cat_inv in H as (u & v & -> & Hu & Hv).
      apply IHr in Hu. apply (lang_cat _ _ (c :: u) v); assumption. }
    assert (Hinv : lang (Cat r q) (c :: s) ->
                   lang (Cat (deriv c r) q) s \/
                   (lang r [] /\ lang (deriv c q) s)).
    { intros H. apply lang_cat_inv in H as (u & v & Heq & Hu & Hv).
      destruct u as [|c' u'].
      - simpl in Heq. subst v. right. split; [exact Hu | apply IHq, Hv].
      - simpl in Heq. injection Heq as Hc Hs. subst c' s. left.
        apply lang_cat; [apply IHr, Hu | exact Hv]. }
    destruct (nullable r) eqn:Hn.
    + split.
      * intros H. apply lang_alt_inv in H as [H|H]; [auto|].
        apply nullable_spec in Hn.
        apply (lang_cat _ _ [] (c :: s)); [exact Hn | apply IHq; assumption].
      * intros H. destruct (Hinv H) as [H1|[_ H2]];
          [apply lang_alt_l | apply lang_alt_r]; assumption.
    + split; [exact Hcat|].
      intros H. destruct (Hinv H) as [H1|[H1 _]]; [exact H1|].
      apply nullable_spec in H1. congruence.
  - split; intros H.
    + apply lang_alt_inv in H as [H|H];
        [apply lang_alt_l, IHr | apply lang_alt_r, IHq]; assumption.
    + apply lang_alt_inv in H as [H|H];
        [apply lang_alt_l, IHr | apply lang_alt_r, IHq]; assumption.
  - split.
    + intros H. apply lang_cat_inv in H as (u & v & -> & Hu & Hv).
      apply IHr in Hu. apply (lang_star_app _ (c :: u) v); assumption.
    + intros H. apply lang_star_cons in H as (u & v & -> & Hu & Hv).
      apply lang_cat; [apply IHr, Hu | exact Hv].
Qed.

Theorem test_spec r s : test r s = true <-> lang r s.
Proof.
  unfold test. revert r. induction s as [|c s IH]; intros r; simpl.
  - apply nullable_spec.
  - rewrite IH. apply deriv_spec.
Qed.

End RegExpFacts.

(** ** Languages of the shapes the program's patterns are built from *)

Module Shapes.

Import RegExpFacts.

Lemma lang_chr c w : lang (Chr c) w <-> w = [c].
Proof.
  unfold Chr. split.
  - intros H. apply lang_cls_inv in H as (c' & -> & Hc).
    apply N.eqb_eq in Hc. subst. reflexivity.
  - intros ->. constructor. apply N.eqb_refl.
Qed.

Lemma lang_lit l w : lang (Lit l) w <-> w = l.
Proof.
  revert w. induction l as [|c l IH]; intros w; simpl.
  - split; [apply lang_eps_inv | intros ->; constructor].
  - split.
    + intros H. apply lang_cat_inv in H as (u & v & -> & Hu & Hv).
      apply lang_chr in Hu as ->. apply IH in Hv as ->. reflexivity.
    + intros ->. apply (lang_cat _ _ [c] l); [apply lang_chr | apply IH];
        reflexivity.
Qed.

Lemma lang_opt r w : lang (Opt r) w <-> lang r w \/ w = [].
Proof.
  unfold Opt. split.
  - intros H. apply lang_alt_inv in H as [H|H]; [left; exact H|].
    right. apply lang_eps_inv, H.
  - intros [H| ->]; [apply lang_alt_l, H | apply lang_alt_r; constructor].
Qed.

Lemma lang_star_cls p w : lang (Star (Cls p)) w <-> forallb p w = true.
Proof.
  split.
  - intros H. remember (Star (Cls p)) as r eqn:Hr.
    induction H as [| | | | | |r' u v Hu _ Hv IHv]; try discriminate.
    + reflexivity.
    + injection Hr as ->. apply lang_cls_inv in Hu as (c & -> & Hc).
      simpl. rewrite Hc. apply IHv. reflexivity.
  - induction w as [|c w IH]; simpl; intros H.
    + constructor.
    + apply andb_true_iff in H as [Hc Hw].
      apply (lang_star_app _ [c] w); [constructor; exact Hc | apply IH, Hw].
Qed.

Lemma lang_plus_cls p w :
  lang (Plus (Cls p)) w <-> w <> [] /\ forallb p w = true.
Proof.
  unfold Plus. split.
  - intros H. apply lang_cat_inv in H as (u & v & -> & Hu & Hv).
    apply lang_cls_inv in Hu as (c & -> & Hc). apply lang_star_cls in Hv.
    simpl. rewrite Hc, Hv. split; [discriminate | reflexivity].
  - intros [Hne H]. destruct w as [|c w]; [congruence|].
    simpl in H. apply andb_true_iff in H as [Hc Hw].
    apply (lang_cat _ _ [c] w); [constructor; exact Hc|].
    apply lang_star_cls, Hw.
Qed.

Lemma lang_upto_cls k p w :
  lang (Upto k (Cls p)) w <-> length w <= k /\ forallb p w = true.
Proof.
  revert w. induction k as [|k IH]; intros w; simpl Upto.
  - split.
    + intros H. apply lang_eps_inv in H as ->. split; [simpl; lia | reflexivity].
    + intros [Hl _]. destruct w; [constructor | simpl in Hl; lia].
  - rewrite lang_opt. split.
    + intros [H| ->]; [|split; [simpl; lia | reflexivity]].
      apply lang_cat_inv in H as (u & v & -> & Hu & Hv).
      apply lang_cls_inv in Hu as (c & -> & Hc). apply IH in Hv as [Hl Hv].
      simpl. rewrite Hc, Hv. split; [lia | reflexivity].
    + intros [Hl H]. destruct w as [|c w]; [right; reflexivity|].
      left. simpl in Hl, H. apply andb_true_iff in H as [Hc Hw].
      apply (lang_cat _ _ [c] w); [constructor; exact Hc|].
      apply IH. split; [lia | exact Hw].
Qed.

Lemma lang_atleast_cls m k p w :
  lang (AtLeast m k (Cls p)) w <->
  m <= length w <= m + k /\ forallb p w = true.
Proof.
  revert w. induction m as [|m IH]; intros w; simpl AtLeast.
  - rewrite lang_upto_cls. simpl. intuition lia.
  - split.
    + intros H. apply lang_cat_inv in H as (u & v & -> & Hu & Hv).
      apply lang_cls_inv in Hu as (c & -> & Hc). apply IH in Hv as [Hl Hv].
      simpl. rewrite Hc, Hv. split; [lia | reflexivity].
    + intros [Hl H]. destruct w as [|c w]; [simpl in Hl; lia|].
      simpl in Hl, H. apply andb_true_iff in H as [Hc Hw].
      apply (lang_cat _ _ [c] w); [constructor; exact Hc|].
      apply IH. split; [lia | exact Hw].
Qed.

(** [[p]{m,n}]: between [m] and [n] characters, all of the class. *)
Lemma lang_range_cls m n p w :
  m <= n ->
  lang (Range m n (Cls p)) w <-> m <= length w <= n /\ forallb p w = true.
Proof.
  intros Hmn. unfold Range. rewrite lang_atleast_cls.
  replace (m + (n - m)) with n by lia. reflexivity.
Qed.

End Shapes.

(** ** The field validators *)

Module ValidatorFacts.

Import RegExpFacts Shapes.

(** Settle every comparison of the goal whose outcome follows from the
    hypotheses. *)
Ltac settle_cmp :=
  repeat match goal with
  | |- context [(?a <=? ?b)%N] =>
      first [ rewrite (proj2 (N.leb_le a b)) by lia
            | rewrite (proj2 (N.leb_gt a b)) by lia ]
  | |- context [(?a <? ?b)%N] =>
      first [ rewrite (proj2 (N.ltb_lt a b)) by lia
            | rewrite (proj2 (N.ltb_ge a b)) by lia ]
  | |- context [(?a =? ?b)%N] =>
      first [ rewrite (proj2 (N.eqb_eq a b)) by lia
            | rewrite (proj2 (N.eqb_neq a b)) by lia ]
  end.

Lemma in_range_spec lo hi c :
  in_range lo hi c = true <-> (lo <= c <= hi)%N.
Proof. unfold in_range. rewrite andb_true_iff, !N.leb_le. reflexivity. Qed.

Lemma truthy_spec (v : jsstring) : truthy v = true <-> v <> [].
Proof. destruct v; simpl; split; congruence. Qed.

Lemma eqb_spec (a b : jsstring) : JS.eqb a b = true <-> a = b.
Proof. unfold JS.eqb. apply bool_decide_eq_true. Qed.

Lemma name_re_spec v : lang name_re v <-> v <> [] /\ forallb nameChar v = true.
Proof. unfold name_re. apply lang_plus_cls. Qed.

Lemma validateName_valid v :
  isValid (validateName v) = true <->
  v <> [] /\ 2 <= length v /\ lang name_re v.
Proof.
  unfold validateName.
  destruct (truthy v) eqn:Ht; simpl.
  2:{ split; [discriminate|]. intros (Hne & _). apply truthy_spec in Hne.
      congruence. }
  apply truthy_spec in Ht.
  destruct (Nat.ltb_spec (length v) 2) as [Hl|Hl]; simpl.
  { split; [discriminate|]. intros (_ & H2 & _). lia. }
  destruct (test name_re v) eqn:Hre; simpl.
  - apply test_spec in Hre. tauto.
  - split; [discriminate|]. intros (_ & _ & H). apply test_spec in H.
    congruence.
Qed.

Lemma productLine_re_spec v :
  lang productLine_re v <->
  exists letters digits,
    v = letters ++ 45%N :: digits
    /\ 2 <= length letters <= 4 /\ forallb isUpper letters = true
    /\ 2 <= length digits <= 4 /\ forallb isDigit digits = true.
Proof.
  unfold productLine_re. split.
  - intros H. apply lang_cat_inv in H as (a & r & -> & Ha & Hr).
    apply lang_cat_inv in Hr as (dash & d & -> & Hdash & Hd).
    apply lang_chr in Hdash as ->.
    apply lang_range_cls in Ha as [Hla Ha]; [|lia].
    apply lang_range_cls in Hd as [Hld Hd]; [|lia].
    exists a, d. simpl. auto.
  - intros (a & d & -> & Hla & Ha & Hld & Hd).
    apply lang_cat; [apply lang_range_cls; [lia | auto]|].
    apply (lang_cat _ _ [45%N] d); [apply lang_chr; reflexivity|].
    apply lang_range_cls; [lia | auto].
Qed.

Lemma validateProductLine_valid v :
  isValid (validateProductLine v) = true <->
  v <> [] /\ 3 <= length v /\ lang productLine_re v.
Proof.
  unfold validateProductLine.
  destruct (truthy v) eqn:Ht; simpl.
  2:{ split; [discriminate|]. intros (Hne & _). apply truthy_spec in Hne.
      congruence. }
  apply truthy_spec in Ht.
  destruct (Nat.ltb_spec (length v) 3) as [Hl|Hl]; simpl.
  { split; [discriminate|]. intros (_ & H2 & _). lia. }
  destruct (test productLine_re v) eqn:Hre; simpl.
  - apply test_spec in Hre. tauto.
  - split; [discriminate|]. intros (_ & _ & H). apply test_spec in H.
    congruence.
Qed.

Lemma erCode_re_spec v :
  lang erCode_re v <->
  exists digits,
    v = js "ER" ++ digits /\ length digits = 6 /\ forallb isDigit digits = true.
Proof.
  unfold erCode_re. split.
  - intros H. apply lang_cat_inv in H as (a & d & -> & Ha & Hd).
    apply lang_lit in Ha as ->.
    apply lang_range_cls in Hd as [Hld Hd]; [|lia].
    exists d. repeat split; [lia | exact Hd].
  - intros (d & -> & Hl & Hd).
    apply lang_cat; [apply lang_lit; reflexivity|].
    apply lang_range_cls; [lia|]. split; [lia | exact Hd].
Qed.

Lemma validateERCode_valid v :
  isValid (validateERCode v) = true <-> lang erCode_re v.
Proof.
  unfold validateERCode.
  destruct (truthy v) eqn:Ht; simpl.
  2:{ split; [discriminate|]. intros H. apply erCode_re_spec in H as (d & -> & _).
      simpl in Ht. discriminate. }
  destruct (test erCode_re v) eqn:Hre; simpl.
  - apply test_spec in Hre. tauto.
  - split; [discriminate|]. intros H. apply test_spec in H. congruence.
Qed.

Lemma validateDescription_valid v :
  isValid (validateDescription v) = true <-> 10 <= length v <= 500.
Proof.
  unfold validateDescription.
  destruct v as [|c v]; [simpl; split; [discriminate | lia]|].
  remember (length (c :: v)) as n eqn:Hn. clear Hn. simpl truthy.
  destruct (Nat.ltb_spec n 10) as [Hl|Hl];
    destruct (Nat.ltb_spec 500 n) as [Hu|Hu]; simpl;
    split; try discriminate; try lia; reflexivity.
Qed.

Lemma modelNumber_re_spec v :
  lang modelNumber_re v <->
  exists letters digits suffix,
    v = letters ++ digits ++ suffix
    /\ length letters = 2 /\ forallb isUpper letters = true
    /\ length digits = 4 /\ forallb isDigit digits = true
    /\ length suffix <= 1 /\ forallb isUpper suffix = true.
Proof.
  unfold modelNumber_re. split.
  - intros H. apply lang_cat_inv in H as (a & r & -> & Ha & Hr).
    apply lang_cat_inv in Hr as (d & x & -> & Hd & Hx).
    apply lang_range_cls in Ha as [Hla Ha]; [|lia].
    apply lang_range_cls in Hd as [Hld Hd]; [|lia].
    exists a, d, x. repeat split; try lia; try assumption.
    + apply lang_opt in Hx as [Hx| ->]; [|simpl; lia].
      apply lang_cls_inv in Hx as (c & -> & _). simpl. lia.
    + apply lang_opt in Hx as [Hx| ->]; [|reflexivity].
      apply lang_cls_inv in Hx as (c & -> & Hc). simpl. rewrite Hc.
      reflexivity.
  - intros (a & d & x & -> & Hla & Ha & Hld & Hd & Hlx & Hx).
    apply lang_cat; [apply lang_range_cls; [lia|split; [lia|exact Ha]]|].
    apply lang_cat; [apply lang_range_cls; [lia|split; [lia|exact Hd]]|].
    apply lang_opt. destruct x as [|c [|c' x]]; [right; reflexivity| |].
    + left. constructor. simpl in Hx. rewrite andb_true_r in Hx. exact Hx.
    + simpl in Hlx. lia.
Qed.

Lemma validateModelNumber_valid v :
  isValid (validateModelNumber v) = true <-> lang modelNumber_re v.
Proof.
  unfold validateModelNumber.
  destruct (truthy v) eqn:Ht; simpl.
  2:{ split; [discriminate|]. intros H.
      apply modelNumber_re_spec in H as (a & d & x & -> & Hla & _).
      destruct a; [simpl in Hla; lia | simpl in Ht; discriminate]. }
  destruct (test modelNumber_re v) eqn:Hre; simpl.
  - apply test_spec in Hre. tauto.
  - split; [discriminate|]. intros H. apply test_spec in H. congruence.
Qed.

End ValidatorFacts.

(** ** Trimming and escaping *)

Module SanitizeFacts.

Import ValidatorFacts.

Lemma dropWhile_In p c s : In c s -> p c = false -> In c (dropWhile p s).
Proof.
  intros Hin Hp. induction s as [|x s IH]; [destruct Hin|].
  simpl. destruct (p x) eqn:Hx.
  - destruct Hin as [->|Hin]; [congruence | apply IH, Hin].
  - exact Hin.
Qed.

Lemma dropWhile_head p c s : p c = false -> dropWhile p (c :: s) = c :: s.
Proof. intros Hp. simpl. rewrite Hp. reflexivity. Qed.

Lemma dropWhile_all_false p s :
  forallb (fun c => negb (p c)) s = true -> dropWhile p s = s.
Proof.
  destruct s as [|c s]; [reflexivity|]. simpl. intros H.
  apply andb_true_iff in H as [Hc _]. apply negb_true_iff in Hc.
  rewrite Hc. reflexivity.
Qed.

Lemma trim_In c s : In c s -> isSpace c = false -> In c (trim s).
Proof.
  intros Hin Hc. unfold trim, trimEnd, trimStart.
  apply in_rev. rewrite rev_involutive.
  apply dropWhile_In; [|exact Hc]. apply in_rev. rewrite rev_involutive.
  apply dropWhile_In; assumption.
Qed.

Lemma trim_noop s :
  forallb (fun c => negb (isSpace c)) s = true -> trim s = s.
Proof.
  intros H. unfold trim, trimEnd, trimStart.
  rewrite (dropWhile_all_false _ _ H).
  rewrite dropWhile_all_false; [apply rev_involutive|].
  apply forallb_forall. intros x Hx. apply in_rev in Hx.
  exact (proj1 (forallb_forall _ _) H x Hx).
Qed.

Lemma dropWhile_nonempty p s :
  dropWhile p s <> [] <-> exists c, In c s /\ p c = false.
Proof.
  induction s as [|x s IH]; simpl.
  - split; [congruence | intros (c & [] & _)].
  - destruct (p x) eqn:Hx.
    + rewrite IH. split; intros (c & Hin & Hc); exists c.
      * auto.
      * destruct Hin as [->|Hin]; [congruence | auto].
    + split; [|discriminate]. intros _. exists x. auto.
Qed.

(** A string is blank after trimming exactly when it is all white space. *)
Lemma trim_blank s : trim s = [] <-> forallb isSpace s = true.
Proof.
  split.
  - intros H. apply forallb_forall. intros c Hc.
    destruct (isSpace c) eqn:Hs; [reflexivity|].
    pose proof (trim_In c s Hc Hs) as Hin. rewrite H in Hin. destruct Hin.
  - intros H. destruct (trim s) as [|c t] eqn:Ht; [reflexivity|].
    assert (Hin : In c (trim s)) by (rewrite Ht; left; reflexivity).
    unfold trim, trimEnd, trimStart in Hin.
    apply in_rev in Hin.
    assert (Hne : dropWhile isSpace (rev (dropWhile isSpace s)) <> []).
    { intros E. rewrite E in Hin. destruct Hin. }
    apply dropWhile_nonempty in Hne as (x & Hx & Hsx).
    apply in_rev in Hx.
    assert (Hne2 : dropWhile isSpace s <> []).
    { intros E. rewrite E in Hx. destruct Hx. }
    apply dropWhile_nonempty in Hne2 as (y & Hy & Hsy).
    rewrite (proj1 (forallb_forall _ _) H y Hy) in Hsy. discriminate.
Qed.

Lemma replaceAll_app k rep a b :
  replaceAll k rep (a ++ b) = replaceAll k rep a ++ replaceAll k rep b.
Proof. unfold replaceAll. apply flat_map_app. Qed.

Lemma escape_app a b :
  Validator.escape (a ++ b) = Validator.escape a ++ Validator.escape b.
Proof. unfold Validator.escape. rewrite !replaceAll_app. reflexivity. Qed.

Lemma escape_cons c s :
  Validator.escape (c :: s) = Validator.escape [c] ++ Validator.escape s.
Proof. apply (escape_app [c] s). Qed.

(** What one character becomes. *)
Lemma escape_char c :
  Validator.escape [c] =
  if (c =? 38)%N then js "&amp;"
  else if (c =? 34)%N then js "&quot;"
  else if (c =? 39)%N then js "&#x27;"
  else if (c =? 60)%N then js "&lt;"
  else if (c =? 62)%N then js "&gt;"
  else if (c =? 47)%N then js "&#x2F;"
  else if (c =? 92)%N then js "&#x5C;"
  else if (c =? 96)%N then js "&#96;"
  else [c].
Proof.
  destruct (N.eqb_spec c 38) as [->|H1]; [reflexivity|].
  destruct (N.eqb_spec c 34) as [->|H2]; [reflexivity|].
  destruct (N.eqb_spec c 39) as [->|H3]; [reflexivity|].
  destruct (N.eqb_spec c 60) as [->|H4]; [reflexivity|].
  destruct (N.eqb_spec c 62) as [->|H5]; [reflexivity|].
  destruct (N.eqb_spec c 47) as [->|H6]; [reflexivity|].
  destruct (N.eqb_spec c 92) as [->|H7]; [reflexivity|].
  destruct (N.eqb_spec c 96) as [->|H8]; [reflexivity|].
  unfold Validator.escape, replaceAll. simpl.
  apply N.eqb_neq in H1, H2, H3, H4, H5, H6, H7, H8.
  rewrite H1. simpl. rewrite H2. simpl. rewrite H3. simpl. rewrite H4. simpl.
  rewrite H5. simpl. rewrite H6. simpl. rewrite H7. simpl. rewrite H8.
  reflexivity.
Qed.

Lemma escape_char_plain c : isSpecial c = false -> Validator.escape [c] = [c].
Proof.
  unfold isSpecial. simpl. rewrite !orb_false_iff.
  intros (H1 & H2 & H3 & H4 & H5 & H6 & H7 & H8 & _).
  rewrite escape_char, H1, H2, H3, H4, H5, H6, H7, H8. reflexivity.
Qed.

Lemma escape_noop s :
  forallb (fun c => negb (isSpecial c)) s = true -> Validator.escape s = s.
Proof.
  induction s as [|c s IH]; [reflexivity|]. intros H. simpl in H.
  apply andb_true_iff in H as [Hc Hs]. apply negb_true_iff in Hc.
  rewrite escape_cons, (escape_char_plain _ Hc), (IH Hs). reflexivity.
Qed.

Lemma escape_char_length c : 1 <= length (Validator.escape [c]).
Proof.
  rewrite escape_char.
  repeat match goal with |- context [if ?b then _ else _] => destruct b end;
    simpl; lia.
Qed.

Lemma escape_length s : length s <= length (Validator.escape s).
Proof.
  induction s as [|c s IH]; [simpl; lia|].
  rewrite escape_cons, length_app. pose proof (escape_char_length c).
  simpl length at 1. lia.
Qed.


Lemma escape_nonempty s : s <> [] -> Validator.escape s <> [].
Proof.
  intros Hne E. pose proof (escape_length s) as Hl. rewrite E in Hl.
  destruct s; [congruence | simpl in Hl; lia].
Qed.


End SanitizeFacts.

(** ** The handlers, case by case *)

Module ServerFacts.

Import Server.

Local Open Scope string_scope.

(** What [createSubmission] does, with the monad unfolded. *)
Lemma createSubmission_cases req w :
  createSubmission req w =
  match presentFields (sanitizeInput req) with
  | None =>
      (inr (mkResponse 400 (Failure "All fields are required" None None)), w)
  | Some fd =>
      let doc := mkSubmission (nextId w) fd (clock w) in
      let w1 calls' :=
        mkWorld (docs w) (clock w) (N.succ (nextId w)) (fault w) calls' in
      match validationErrors formSubmissionSchema fd with
      | (_ :: _) as errors =>
          (inr (mkResponse 400
                  (Failure "Validation failed" (Some errors) None)),
           w1 (calls w))
      | [] =>
          match fault w with
          | Some m =>
              (inr (mkResponse 500
                      (Failure "Failed to save form submission" None
                         (Some m))),
               w1 (CallInsert doc :: calls w))
          | None =>
              match docs w !! nextId w with
              | Some _ =>
                  (inr (mkResponse 500
                          (Failure "Failed to save form submission" None
                             (Some "E11000 duplicate key error"))),
                   w1 (CallInsert doc :: calls w))
              | None =>
                  (inr (mkResponse 201
                          (Stored (Some "Form submitted successfully") doc)),
                   mkWorld (<[nextId w := doc]> (docs w)) (clock w)
                     (N.succ (nextId w)) None (CallInsert doc :: calls w))
              end
          end
      end
  end.
Proof.
  unfold createSubmission, tryCatch.
  destruct (presentFields (sanitizeInput req)) as [fd|]; [|reflexivity].
  unfold bind, newObjectId, newDate, save. simpl.
  destruct (validationErrors formSubmissionSchema fd) as [|e errs];
    [|reflexivity].
  unfold bind, storeCall, getDocs. simpl.
  destruct (fault w) as [m|] eqn:Hf; [reflexivity|]. simpl.
  destruct (docs w !! nextId w) as [d|] eqn:Hd; simpl; reflexivity.
Qed.

Lemma sanitize_truthy s : truthy (sanitize s) = true <-> trim s <> [].
Proof.
  unfold sanitize. rewrite ValidatorFacts.truthy_spec. split.
  - intros H E. rewrite E in H. apply H. reflexivity.
  - apply SanitizeFacts.escape_nonempty.
Qed.

Lemma presentFields_Some req fd :
  presentFields (sanitizeInput req) = Some fd <->
  exists n p e d m,
    b_name req = Some n /\ b_productLine req = Some p
    /\ b_erCode req = Some e /\ b_description req = Some d
    /\ b_modelNumber req = Some m
    /\ trim n <> [] /\ trim p <> [] /\ trim e <> [] /\ trim d <> []
    /\ trim m <> []
    /\ fd = mkFormData (sanitize n) (sanitize p) (sanitize e) (sanitize d)
              (sanitize m).
Proof.
  unfold presentFields, sanitizeInput. simpl.
  destruct (b_name req) as [n|], (b_productLine req) as [p|],
    (b_erCode req) as [e|], (b_description req) as [d|],
    (b_modelNumber req) as [m|]; simpl;
    try (split; [discriminate | intros (?&?&?&?&?&?&?&?&?&?&_); discriminate]).
  destruct (truthy (sanitize n)) eqn:Hn, (truthy (sanitize p)) eqn:Hp,
    (truthy (sanitize e)) eqn:He, (truthy (sanitize d)) eqn:Hd,
    (truthy (sanitize m)) eqn:Hm; simpl;
    try (split; [discriminate|];
         intros (n' & p' & e' & d' & m' & En & Ep & Ee & Ed & Em
                 & Tn & Tp & Te & Td & Tm & _);
         injection En as <-; injection Ep as <-; injection Ee as <-;
         injection Ed as <-; injection Em as <-;
         apply sanitize_truthy in Tn, Tp, Te, Td, Tm; congruence).
  apply sanitize_truthy in Hn, Hp, He, Hd, Hm. split.
  - intros H. injection H as <-. exists n, p, e, d, m. repeat split; auto.
  - intros (n' & p' & e' & d' & m' & En & Ep & Ee & Ed & Em & _ & _ & _ & _
            & _ & ->).
    injection En as <-; injection Ep as <-; injection Ee as <-;
      injection Ed as <-; injection Em as <-. reflexivity.
Qed.

End ServerFacts.

(** ** Claims about the product line (client pattern against server list) *)

Module ProductLine.

Import Server RegExpFacts Shapes ValidatorFacts SanitizeFacts ServerFacts.

Local Open Scope string_scope.

Lemma pathErrors_In sch n p e d m msg :
  In msg (pathErrors sch n p e d m) <->
  pathError (s_name sch) n = Some msg
  \/ pathError (s_productLine sch) p = Some msg
  \/ pathError (s_erCode sch) e = Some msg
  \/ pathError (s_description sch) d = Some msg
  \/ pathError (s_modelNumber sch) m = Some msg.
Proof.
  unfold pathErrors. simpl.
  destruct (pathError (s_name sch) n), (pathError (s_productLine sch) p),
    (pathError (s_erCode sch) e), (pathError (s_description sch) d),
    (pathError (s_modelNumber sch) m); simpl; intuition congruence.
Qed.

Lemma validationErrors_In sch fd msg :
  In msg (validationErrors sch fd) <->
  pathError (s_name sch) (Some (name fd)) = Some msg
  \/ pathError (s_productLine sch) (Some (productLine fd)) = Some msg
  \/ pathError (s_erCode sch) (Some (erCode fd)) = Some msg
  \/ pathError (s_description sch) (Some (description fd)) = Some msg
  \/ pathError (s_modelNumber sch) (Some (modelNumber fd)) = Some msg.
Proof. apply pathErrors_In. Qed.

Lemma existsb_eqb_In (v : list N) (l : list (list N)) :
  existsb (JS.eqb v) l = true <-> In v l.
Proof.
  rewrite existsb_exists. split.
  - intros (x & Hx & E). apply eqb_spec in E. subst. exact Hx.
  - intros H. exists v. split; [exact H | apply eqb_spec; reflexivity].
Qed.

(** The schema's verdict on a product line. *)
Lemma productLine_path v :
  pathError (s_productLine formSubmissionSchema) (Some v) =
  if truthy v then
    if existsb (JS.eqb v) productLines then None
    else Some "Please select a valid product line"
  else Some "Product Line is required".
Proof.
  unfold formSubmissionSchema. cbn [s_productLine pathError violation].
  destruct (truthy v); [|reflexivity].
  destruct (existsb (JS.eqb v) productLines); reflexivity.
Qed.

Lemma productLine_accepted v :
  pathError (s_productLine formSubmissionSchema) (Some v) = None <->
  In v productLines.
Proof.
  rewrite productLine_path. destruct (truthy v) eqn:Ht.
  - destruct (existsb (JS.eqb v) productLines) eqn:He.
    + apply existsb_eqb_In in He. tauto.
    + split; [discriminate|]. intros H. apply existsb_eqb_In in H. congruence.
  - split; [discriminate|]. intros H. destruct v; [|discriminate].
    exfalso. revert H. vm_compute. intuition discriminate.
Qed.

Lemma no_dash_in_productLines :
  forall v, In v productLines -> ~ In 45%N v.
Proof.
  assert (H : forallb (fun p => negb (existsb (N.eqb 45) p)) productLines
              = true) by (vm_compute; reflexivity).
  intros v Hv Hin. rewrite forallb_forall in H. specialize (H v Hv).
  apply negb_true_iff in H.
  assert (Hex : existsb (N.eqb 45) v = true).
  { apply existsb_exists. exists 45%N. split; [exact Hin | reflexivity]. }
  congruence.
Qed.

Lemma codeChar_plain c :
  codeChar c = true -> isSpace c = false /\ isSpecial c = false.
Proof.
  unfold codeChar, isUpper, isDigit. rewrite !orb_true_iff, !in_range_spec.
  rewrite N.eqb_eq. intros H.
  assert (Hr : (45 <= c <= 90 /\ c <> 47 /\ c <> 60 /\ c <> 62)%N) by lia.
  split; unfold isSpace, isSpecial, in_range; simpl; settle_cmp; reflexivity.
Qed.

Lemma forallb_app_iff {A} (p : A -> bool) a b :
  forallb p (a ++ b) = true <-> forallb p a = true /\ forallb p b = true.
Proof. rewrite forallb_app. apply andb_true_iff. Qed.

Lemma forallb_weaken {A} (p q : A -> bool) l :
  (forall x, p x = true -> q x = true) ->
  forallb p l = true -> forallb q l = true.
Proof.
  intros Hpq. rewrite !forallb_forall. intros H x Hx. apply Hpq, H, Hx.
Qed.

Lemma productLine_chars v :
  lang productLine_re v -> forallb codeChar v = true /\ In 45%N v.
Proof.
  intros H. apply productLine_re_spec in H as (a & d & -> & _ & Ha & _ & Hd).
  split; [|apply in_elt].
  apply forallb_app_iff. split.
  - revert Ha. apply forallb_weaken. intros x Hx. unfold codeChar.
    rewrite Hx. reflexivity.
  - simpl. revert Hd. apply forallb_weaken. intros x Hx. unfold codeChar.
    rewrite Hx, orb_true_r. reflexivity.
Qed.

(** The sanitizer leaves such a value as it is. *)
Lemma sanitize_codeChars v : forallb codeChar v = true -> sanitize v = v.
Proof.
  intros H. unfold sanitize. rewrite trim_noop.
  - apply escape_noop. revert H. apply forallb_weaken. intros x Hx.
    apply codeChar_plain in Hx as [_ Hx]. rewrite Hx. reflexivity.
  - revert H. apply forallb_weaken. intros x Hx.
    apply codeChar_plain in Hx as [Hx _]. rewrite Hx. reflexivity.
Qed.

Lemma client_server_disjoint v :
  isValid (validateProductLine v) = true -> ~ In v productLines.
Proof.
  intros H Hin. apply validateProductLine_valid in H as (_ & _ & H).
  apply productLine_chars in H as [_ H].
  exact (no_dash_in_productLines v Hin H).
Qed.

(** C1. The client accepts exactly the non-empty strings of length at
    least 3 in the language of [^[A-Z]{2,4}-[0-9]{2,4}$]; the schema accepts
    exactly the 38 listed values; no string is in both sets; and a POST
    whose product line the client accepts is always answered 400, either
    by the presence guard or by a validation failure that lists the
    product-line message, and nothing is stored. *)
Theorem productLine_client_server_disjoint :
  (forall v,
      isValid (validateProductLine v) = true <->
      v <> [] /\ 3 <= length v /\ lang productLine_re v)
  /\ (forall v,
         pathError (s_productLine formSubmissionSchema) (Some v) = None <->
         In v productLines)
  /\ length productLines = 38 /\ NoDup productLines
  /\ (forall v,
         isValid (validateProductLine v) = true -> ~ In v productLines)
  /\ (forall req w v,
         b_productLine req = Some v ->
         isValid (validateProductLine v) = true ->
         exists message errors,
           fst (createSubmission req w) =
             inr (mkResponse 400 (Failure message errors None))
           /\ docs (snd (createSubmission req w)) = docs w
           /\ ((message = "All fields are required" /\ errors = None)
               \/ (message = "Validation failed"
                   /\ exists errs,
                       errors = Some errs
                       /\ In "Please select a valid product line" errs))).
Proof.
  split; [exact validateProductLine_valid|].
  split; [exact productLine_accepted|].
  split; [reflexivity|].
  split; [apply (bool_decide_unpack (NoDup productLines)); vm_compute; exact I|].
  split; [exact client_server_disjoint|].
  intros req w v Hv Hvalid. rewrite createSubmission_cases.
  destruct (presentFields (sanitizeInput req)) as [fd|] eqn:Hp.
  2:{ exists "All fields are required", None. simpl. auto. }
  apply presentFields_Some in Hp
    as (n & p & e & d & m & _ & Hp & _ & _ & _ & _ & _ & _ & _ & _ & ->).
  rewrite Hv in Hp. injection Hp as <-.
  pose proof (client_server_disjoint v Hvalid) as Hnot.
  apply validateProductLine_valid in Hvalid as (Hne & _ & Hlang).
  apply productLine_chars in Hlang as [Hchars _].
  set (fd := mkFormData _ _ _ _ _).
  assert (Hin : In "Please select a valid product line"
                  (validationErrors formSubmissionSchema fd)).
  { apply validationErrors_In. right. left. unfold fd. simpl productLine.
    rewrite (sanitize_codeChars v Hchars), productLine_path.
    apply truthy_spec in Hne. rewrite Hne.
    destruct (existsb (JS.eqb v) productLines) eqn:He; [|reflexivity].
    apply existsb_eqb_In in He. contradiction. }
  cbv zeta.
  destruct (validationErrors formSubmissionSchema fd) as [|e1 errs];
    [destruct Hin|].
  exists "Validation failed", (Some (e1 :: errs)). simpl.
  split; [reflexivity|]. split; [reflexivity|]. right.
  split; [reflexivity|]. exists (e1 :: errs). auto.
Qed.

End ProductLine.

(** ** Claims about Create: sanitizing, validation, the stored record *)

Module Create.

Import Server Samples.
Import RegExpFacts Shapes ValidatorFacts SanitizeFacts ServerFacts ProductLine.

Local Open Scope string_scope.

Lemma erCode_path v :
  pathError (s_erCode formSubmissionSchema) (Some v) =
  if truthy v then
    if test erCode_re v then None
    else Some "ER Code format must be ER followed by 6 digits"
  else Some "ER Code is required".
Proof.
  unfold formSubmissionSchema. cbn [s_erCode pathError violation].
  destruct (truthy v); [|reflexivity]. destruct (test erCode_re v); reflexivity.
Qed.

Lemma name_path v :
  pathError (s_name formSubmissionSchema) (Some v) =
  if truthy v then
    if (length v <? 2)%nat then Some "Name must be at least 2 characters"
    else if (100 <? length v)%nat
    then Some "Name must be less than 100 characters"
    else if test name_re v then None
    else Some "Name can only contain letters and spaces"
  else Some "Name is required".
Proof.
  unfold formSubmissionSchema. cbn [s_name pathError violation].
  destruct (truthy v); [|reflexivity].
  destruct (length v <? 2)%nat; [reflexivity|].
  destruct (100 <? length v)%nat; [reflexivity|].
  destruct (test name_re v); reflexivity.
Qed.

Lemma description_path v :
  pathError (s_description formSubmissionSchema) (Some v) =
  if truthy v then
    if (length v <? 10)%nat
    then Some "Description must be at least 10 characters"
    else if (500 <? length v)%nat
    then Some "Description must be less than 500 characters"
    else None
  else Some "Description is required".
Proof.
  unfold formSubmissionSchema. cbn [s_description pathError violation].
  destruct (truthy v); [|reflexivity].
  destruct (length v <? 10)%nat; [reflexivity|].
  destruct (500 <? length v)%nat; reflexivity.
Qed.

(** When the guard lets a body through, the schema sees its sanitized
    values. *)
Lemma presentFields_errors req fd :
  presentFields (sanitizeInput req) = Some fd ->
  validationErrors formSubmissionSchema fd = schemaErrors (sanitizeInput req).
Proof.
  intros H. apply presentFields_Some in H
    as (n & p & e & d & m & Hn & Hp & He & Hd & Hm & _ & _ & _ & _ & _ & ->).
  unfold validationErrors, schemaErrors, sanitizeInput. simpl.
  rewrite Hn, Hp, He, Hd, Hm. reflexivity.
Qed.

Lemma presentFields_present req :
  is_Some (presentFields (sanitizeInput req)) <->
  present (b_name req) /\ present (b_productLine req)
  /\ present (b_erCode req) /\ present (b_description req)
  /\ present (b_modelNumber req).
Proof.
  unfold present. split.
  - intros [fd H]. apply presentFields_Some in H
      as (n & p & e & d & m & Hn & Hp & He & Hd & Hm & ? & ? & ? & ? & ? & _).
    repeat split; eauto.
  - intros ((n & Hn & ?) & (p & Hp & ?) & (e & He & ?) & (d & Hd & ?)
            & (m & Hm & ?)).
    eexists. apply presentFields_Some. exists n, p, e, d, m.
    repeat split; eauto.
Qed.

(** A body that fails the guard: the flat 400, and the world as it was. *)
Lemma create_guard req w :
  presentFields (sanitizeInput req) = None ->
  createSubmission req w =
  (inr (mkResponse 400 (Failure "All fields are required" None None)), w).
Proof. intros H. rewrite createSubmission_cases, H. reflexivity. Qed.

(** A body that passes the guard and fails the schema. *)
Lemma create_invalid req w fd :
  presentFields (sanitizeInput req) = Some fd ->
  validationErrors formSubmissionSchema fd <> [] ->
  fst (createSubmission req w) =
    inr (mkResponse 400
           (Failure "Validation failed"
              (Some (validationErrors formSubmissionSchema fd)) None))
  /\ docs (snd (createSubmission req w)) = docs w
  /\ calls (snd (createSubmission req w)) = calls w.
Proof.
  intros Hp Hne. rewrite createSubmission_cases, Hp. cbv zeta.
  destruct (validationErrors formSubmissionSchema fd); [congruence|].
  simpl. auto.
Qed.

(** A body that passes the guard and the schema, on a store that is
    ready. *)
Lemma create_valid req w fd :
  presentFields (sanitizeInput req) = Some fd ->
  validationErrors formSubmissionSchema fd = [] ->
  storeReady w ->
  let doc := mkSubmission (nextId w) fd (clock w) in
  fst (createSubmission req w) =
    inr (mkResponse 201 (Stored (Some "Form submitted successfully") doc))
  /\ docs (snd (createSubmission req w)) = <[nextId w := doc]> (docs w).
Proof.
  intros Hp He [Hf Hd]. rewrite createSubmission_cases, Hp. cbv zeta.
  rewrite He, Hf, Hd. simpl. auto.
Qed.

(** Every 201 of Create: the stored document, and where it came from. *)
Lemma create_stored req w msg doc :
  fst (createSubmission req w) = inr (mkResponse 201 (Stored msg doc)) ->
  exists fd,
    presentFields (sanitizeInput req) = Some fd
    /\ validationErrors formSubmissionSchema fd = []
    /\ doc = mkSubmission (nextId w) fd (clock w)
    /\ docs (snd (createSubmission req w)) = <[nextId w := doc]> (docs w).
Proof.
  rewrite createSubmission_cases.
  destruct (presentFields (sanitizeInput req)) as [fd|]; [|discriminate].
  cbv zeta.
  destruct (validationErrors formSubmissionSchema fd) eqn:He; [|discriminate].
  destruct (fault w); [discriminate|].
  destruct (docs w !! nextId w); [discriminate|]. simpl.
  intros H. injection H as _ <-. exists fd. repeat split; auto.
Qed.

Lemma sameFields_present a b :
  sameFields a b ->
  presentFields (sanitizeInput a) = presentFields (sanitizeInput b).
Proof.
  intros (Hn & Hp & He & Hd & Hm). unfold presentFields, sanitizeInput.
  simpl. rewrite Hn, Hp, He, Hd, Hm. reflexivity.
Qed.

Lemma sameFields_create a b w :
  sameFields a b -> createSubmission b w = createSubmission a w.
Proof.
  intros H. rewrite !createSubmission_cases, (sameFields_present a b H).
  reflexivity.
Qed.

(** The first request [submitForm] posts carries the client's clock. *)
Lemma submitForm_first_post respond fd retries e :
  exists later,
    sent (snd (submitForm respond fd retries e)) =
    (later ++ mkPost fd (now e) :: sent e)%list.
Proof.
  assert (Hsent : forall fd' r' e',
             exists later,
               sent (snd (submitForm respond fd' r' e'))
               = (later ++ sent e')%list).
  { intros fd' r'. induction r' as [|r' IH]; intros e'; simpl.
    - destruct (respond _ _); exists [mkPost fd' (now e')]; reflexivity.
    - destruct (respond _ _) as [|err];
        [exists [mkPost fd' (now e')]; reflexivity|].
      destruct (isNetworkError err);
        [|exists [mkPost fd' (now e')]; reflexivity].
      destruct (IH (sleep 1000 (post (mkPost fd' (now e')) e')))
        as (later & ->).
      exists (later ++ [mkPost fd' (now e')])%list. simpl.
      rewrite <- app_assoc. reflexivity. }
  destruct retries as [|r]; simpl.
  - destruct (respond _ _); exists []; reflexivity.
  - destruct (respond _ _) as [|err]; [exists []; reflexivity|].
    destruct (isNetworkError err); [|exists []; reflexivity].
    destruct (Hsent fd r (sleep 1000 (post (mkPost fd (now e)) e)))
      as (later & ->).
    exists later. reflexivity.
Qed.

(** C2. Whenever Create answers 201, the record it returns and stores
    carries the server's clock at the time of the write; the answer and
    the stored record are the same whatever [submittedAt] the request
    carried; and the client does put its own clock into the payload. *)
Theorem submittedAt_is_server_assigned req w msg doc :
  fst (createSubmission req w) = inr (mkResponse 201 (Stored msg doc)) ->
  submittedAt doc = clock w
  /\ docs (snd (createSubmission req w)) !! _id doc = Some doc
  /\ (forall req', sameFields req req' ->
                   createSubmission req' w = createSubmission req w)
  /\ (forall respond fd retries e,
         exists later,
           sent (snd (submitForm respond fd retries e)) =
           (later ++ mkPost fd (now e) :: sent e)%list).
Proof.
  intros H. apply create_stored in H as (fd & _ & _ & -> & Hdocs).
  split; [reflexivity|]. split.
  - rewrite Hdocs. simpl. apply lookup_insert_eq.
  - split; [intros req'; apply sameFields_create|].
    apply submitForm_first_post.
Qed.

Lemma required_first_present msg rest o :
  pathError (required msg :: rest) (sanitize <$> o) = None ->
  exists s, o = Some s /\ trim s <> [].
Proof.
  destruct o as [s|]; simpl; [|discriminate].
  destruct (truthy (sanitize s)) eqn:Ht; [|discriminate].
  intros _. exists s. split; [reflexivity | apply sanitize_truthy, Ht].
Qed.

(** C6, as the handler has it.  A five-digit code with the other fields
    present is answered 400 with a list that names the code; a six-digit
    code with the other fields passing the schema is stored and returned
    with 201; a body that passes the presence guard and fails the schema
    is answered with the message of every failing path and nothing is
    written; a body with an absent or blank field is answered with the
    flat 400 of the guard, without a list, and nothing is written. *)
Theorem create_validation_contract :
  (forall req w,
      b_erCode req = Some (js "ER12345") ->
      present (b_name req) -> present (b_productLine req) ->
      present (b_description req) -> present (b_modelNumber req) ->
      exists errs,
        fst (createSubmission req w) =
          inr (mkResponse 400 (Failure "Validation failed" (Some errs) None))
        /\ In "ER Code format must be ER followed by 6 digits" errs
        /\ docs (snd (createSubmission req w)) = docs w)
  /\ (forall req w,
         b_erCode req = Some (js "ER123456") ->
         pathError (s_name formSubmissionSchema) (sanitize <$> b_name req)
           = None ->
         pathError (s_productLine formSubmissionSchema)
           (sanitize <$> b_productLine req) = None ->
         pathError (s_description formSubmissionSchema)
           (sanitize <$> b_description req) = None ->
         pathError (s_modelNumber formSubmissionSchema)
           (sanitize <$> b_modelNumber req) = None ->
         storeReady w ->
         exists doc,
           fst (createSubmission req w) =
             inr (mkResponse 201
                    (Stored (Some "Form submitted successfully") doc))
           /\ docs (snd (createSubmission req w)) !! _id doc = Some doc
           /\ erCode (fields doc) = js "ER123456")
  /\ (forall req w,
         is_Some (presentFields (sanitizeInput req)) ->
         schemaErrors (sanitizeInput req) <> [] ->
         fst (createSubmission req w) =
           inr (mkResponse 400
                  (Failure "Validation failed"
                     (Some (schemaErrors (sanitizeInput req))) None))
         /\ docs (snd (createSubmission req w)) = docs w
         /\ calls (snd (createSubmission req w)) = calls w)
  /\ (forall req w,
         presentFields (sanitizeInput req) = None ->
         createSubmission req w =
         (inr (mkResponse 400 (Failure "All fields are required" None None)),
          w))
  /\ (forall b msg,
         In msg (schemaErrors b) <->
         pathError (s_name formSubmissionSchema) (b_name b) = Some msg
         \/ pathError (s_productLine formSubmissionSchema) (b_productLine b)
            = Some msg
         \/ pathError (s_erCode formSubmissionSchema) (b_erCode b) = Some msg
         \/ pathError (s_description formSubmissionSchema) (b_description b)
            = Some msg
         \/ pathError (s_modelNumber formSubmissionSchema) (b_modelNumber b)
            = Some msg).
Proof.
  split; [|split; [|split; [|split]]].
  - intros req w He Hn Hp Hd Hm.
    assert (Hpres : is_Some (presentFields (sanitizeInput req))).
    { apply presentFields_present. repeat split; try assumption.
      exists (js "ER12345"). split; [exact He | discriminate]. }
    destruct Hpres as [fd Hfd].
    assert (Hin : In "ER Code format must be ER followed by 6 digits"
                    (validationErrors formSubmissionSchema fd)).
    { apply validationErrors_In. right. right. left.
      apply presentFields_Some in Hfd
        as (n & p & e & d & m & _ & _ & He' & _ & _ & _ & _ & _ & _ & _ & ->).
      rewrite He in He'. injection He' as <-. reflexivity. }
    destruct (create_invalid req w fd Hfd) as (Hr & Hd' & _).
    { intros E. rewrite E in Hin. destruct Hin. }
    exists (validationErrors formSubmissionSchema fd). auto.
  - intros req w He Hn Hp Hd Hm Hready.
    apply required_first_present in Hn as Hn', Hp as Hp', Hd as Hd',
      Hm as Hm'.
    destruct Hn' as (n & En & Tn), Hp' as (p & Ep & Tp),
      Hd' as (d & Ed & Td), Hm' as (m & Em & Tm).
    set (fd := mkFormData (sanitize n) (sanitize p)
                 (sanitize (js "ER123456")) (sanitize d) (sanitize m)).
    assert (Hfd : presentFields (sanitizeInput req) = Some fd).
    { apply presentFields_Some. exists n, p, (js "ER123456"), d, m.
      repeat split; try assumption. discriminate. }
    assert (Hok : validationErrors formSubmissionSchema fd = []).
    { rewrite En in Hn. rewrite Ep in Hp. rewrite Ed in Hd. rewrite Em in Hm.
      unfold validationErrors, pathErrors, fd. cbn [name productLine erCode
        description modelNumber omap list_omap fst snd].
      simpl fmap in Hn, Hp, Hd, Hm. rewrite Hn, Hp, Hd, Hm. reflexivity. }
    destruct (create_valid req w fd Hfd Hok Hready) as (Hr & Hdocs).
    eexists. split; [exact Hr|]. split.
    + rewrite Hdocs. simpl. apply lookup_insert_eq.
    + reflexivity.
  - intros req w [fd Hfd] Hne.
    rewrite <- (presentFields_errors req fd Hfd) in *.
    apply create_invalid; assumption.
  - intros req w. apply create_guard.
  - intros b msg. apply pathErrors_In.
Qed.

End Create.

(** ** What sanitizing does to values the client accepts *)

Module Sanitizing.

Import Server Samples.
Import RegExpFacts Shapes ValidatorFacts SanitizeFacts ServerFacts ProductLine
  Create.

Local Open Scope string_scope.






End Sanitizing.

(** ** The name rule *)

Module NameRule.

Import Samples RegExpFacts Shapes ValidatorFacts.

(** C9 as the specification words it, with the pattern [^[A-Za-z ]+$],
    fails on a name with a tab: the validator accepts it, the pattern does
    not match it. *)
Lemma tab_in_name_accepted :
  isValid (validateName tabbedName) = true
  /\ ~ (tabbedName <> [] /\ 2 <= length tabbedName
        /\ lang spec_name_re tabbedName).
Proof.
  split; [vm_compute; reflexivity|].
  intros (_ & _ & H). apply lang_plus_cls in H as [_ H].
  vm_compute in H. discriminate.
Qed.

(** C9, amended.  The name validator accepts exactly the non-empty strings
    of length at least 2 that match [^[a-zA-Z\s]+$], that is, whose
    characters are all letters or white space; an empty string, a string of
    length 1 and a string with any other character are rejected. *)
Theorem validateName_exact v :
  (isValid (validateName v) = true <->
   v <> [] /\ 2 <= length v /\ lang name_re v)
  /\ (lang name_re v <-> v <> [] /\ forallb nameChar v = true)
  /\ (v = [] \/ length v < 2 \/ (exists c, In c v /\ nameChar c = false) ->
      isValid (validateName v) = false).
Proof.
  split; [apply validateName_valid|]. split; [apply name_re_spec|].
  intros H. destruct (isValid (validateName v)) eqn:E; [|reflexivity].
  apply validateName_valid in E as (Hne & Hlen & Hlang).
  apply name_re_spec in Hlang as [_ Hall].
  destruct H as [H|[H|(c & Hc & Hn)]]; [congruence | lia |].
  rewrite forallb_forall in Hall. rewrite (Hall c Hc) in Hn. discriminate.
Qed.

Lemma validateName_exact_witness :
  isValid (validateName (js "J")) = false
  /\ isValid (validateName (js "O'Neil")) = false
  /\ isValid (validateName (js "Jane Doe")) = true.
Proof.
  split; [|split].
  - apply (proj2 (proj2 (validateName_exact (js "J")))).
    right. left. simpl. lia.
  - apply (proj2 (proj2 (validateName_exact (js "O'Neil")))).
    right. right. exists 39%N. split; [simpl; tauto | reflexivity].
  - apply (proj1 (validateName_exact (js "Jane Doe"))).
    split; [discriminate|]. split; [simpl; lia|].
    apply test_spec. reflexivity.
Defined.

End NameRule.

(** ** Concrete runs of Create *)

Module CreateRuns.

Import Server Samples ProductLine Create Sanitizing.

Local Open Scope string_scope.

Lemma present_sample (s : string) :
  trim (js s) <> [] -> present (Some (js s)).
Proof. intros H. exists (js s). split; [reflexivity | exact H]. Qed.

Lemma productLine_client_server_disjoint_witness :
  exists message errors,
    fst (createSubmission clientBody emptyWorld) =
      inr (mkResponse 400 (Failure message errors None))
    /\ docs (snd (createSubmission clientBody emptyWorld)) = docs emptyWorld
    /\ ((message = "All fields are required" /\ errors = None)
        \/ (message = "Validation failed"
            /\ exists errs,
                errors = Some errs
                /\ In "Please select a valid product line" errs)).
Proof.
  apply (proj2 (proj2 (proj2 (proj2 (proj2
           productLine_client_server_disjoint))))
           clientBody emptyWorld (js "AB-1234")); reflexivity.
Defined.

Lemma submittedAt_is_server_assigned_witness :
  fst (createSubmission goodBody emptyWorld) =
    inr (mkResponse 201 (Stored (Some "Form submitted successfully") goodDoc))
  /\ submittedAt goodDoc = clock emptyWorld
  /\ docs (snd (createSubmission goodBody emptyWorld)) !! _id goodDoc
     = Some goodDoc.
Proof.
  assert (H : fst (createSubmission goodBody emptyWorld) =
              inr (mkResponse 201
                     (Stored (Some "Form submitted successfully") goodDoc)))
    by (vm_compute; reflexivity).
  split; [exact H|].
  destruct (submittedAt_is_server_assigned goodBody emptyWorld _ _ H)
    as (H1 & H2 & _).
  split; [exact H1 | exact H2].
Defined.

(** C6 as the specification words it fails on a body without a name and
    with a five-digit code: the schema has two messages against it, and the
    answer is the flat 400 of the guard, which lists none. *)
Lemma guard_answers_without_field_list :
  schemaErrors (sanitizeInput namelessBody) =
    ["Name is required"; "ER Code format must be ER followed by 6 digits"]
  /\ fst (createSubmission namelessBody emptyWorld) =
       inr (mkResponse 400 (Failure "All fields are required" None None))
  /\ ~ (exists message errs,
           fst (createSubmission namelessBody emptyWorld) =
             inr (mkResponse 400 (Failure message (Some errs) None))).
Proof.
  split; [vm_compute; reflexivity|]. split; [vm_compute; reflexivity|].
  intros (message & errs & H). vm_compute in H. discriminate.
Qed.

Lemma create_validation_contract_witness :
  (exists errs,
      fst (createSubmission shortCodeBody emptyWorld) =
        inr (mkResponse 400 (Failure "Validation failed" (Some errs) None))
      /\ In "ER Code format must be ER followed by 6 digits" errs
      /\ docs (snd (createSubmission shortCodeBody emptyWorld))
         = docs emptyWorld)
  /\ (exists doc,
         fst (createSubmission goodBody emptyWorld) =
           inr (mkResponse 201
                  (Stored (Some "Form submitted successfully") doc))
         /\ docs (snd (createSubmission goodBody emptyWorld)) !! _id doc
            = Some doc
         /\ erCode (fields doc) = js "ER123456")
  /\ createSubmission namelessBody emptyWorld =
     (inr (mkResponse 400 (Failure "All fields are required" None None)),
      emptyWorld).
Proof.
  destruct create_validation_contract as (Ha & Hb & _ & Hd & _).
  split; [|split].
  - apply Ha; [reflexivity | | | |]; apply present_sample; discriminate.
  - apply Hb; try reflexivity. split; reflexivity.
  - apply Hd. reflexivity.
Defined.


End CreateRuns.

(** ** [submitForm]: retries and the message of a failure *)

Module Retry.

Import Samples.

Local Open Scope string_scope.

Lemma repeat_shift {A} (x : A) k l :
  (repeat x k ++ x :: l = x :: repeat x k ++ l)%list.
Proof.
  induction k as [|k IH]; simpl; [reflexivity|]. rewrite IH. reflexivity.
Qed.

Section Service.

Variable respond : nat -> PostBody -> Outcome.

(** A failure that is not a network error ends the call at once. *)
Lemma submitForm_no_retry fd retries e err :
  respond (length (sent e)) (mkPost fd (now e)) = Rejected err ->
  isNetworkError err = false ->
  submitForm respond fd retries e =
  (IApiResponse.mk false (failureMessage err) None, post (mkPost fd (now e)) e).
Proof.
  intros Hr Hn. destruct retries; simpl; rewrite Hr; [reflexivity|].
  rewrite Hn. reflexivity.
Qed.

Lemma submitForm_success fd retries e stored :
  respond (length (sent e)) (mkPost fd (now e)) = Resolved stored ->
  submitForm respond fd retries e =
  (IApiResponse.mk true "Form submitted successfully" (Some stored),
   post (mkPost fd (now e)) e).
Proof. intros Hr. destruct retries; simpl; rewrite Hr; reflexivity. Qed.

(** A network error with retries left: wait a second, then call again with
    one retry less. *)
Lemma submitForm_retry fd retries e err :
  respond (length (sent e)) (mkPost fd (now e)) = Rejected err ->
  isNetworkError err = true ->
  submitForm respond fd (S retries) e =
  submitForm respond fd retries (sleep 1000 (post (mkPost fd (now e)) e)).
Proof. intros Hr Hn. simpl. rewrite Hr, Hn. reflexivity. Qed.



End Service.




End Retry.

(** ** The listing: pages, totals, order *)

Module Listing.

Import Server Samples.

Local Open Scope string_scope.

#[local] Instance newerOrEqual_total : Total newerOrEqual.
Proof. intros a b. unfold newerOrEqual. lia. Qed.

#[local] Instance newerOrEqual_trans : Transitive newerOrEqual.
Proof. intros a b c. unfold newerOrEqual. lia. Qed.

Lemma sorted_length d : length (sorted d) = size d.
Proof.
  unfold sorted. rewrite (Permutation_length (merge_sort_Permutation _ _)).
  rewrite length_map. apply length_map_to_list.
Qed.

Lemma sorted_descending d : StronglySorted newerOrEqual (sorted d).
Proof. apply StronglySorted_merge_sort; apply _. Qed.

Lemma sorted_In d x : In x (sorted d) -> exists k, d !! k = Some x.
Proof.
  unfold sorted. intros H. apply list_elem_of_In in H.
  rewrite merge_sort_Permutation in H.
  apply list_elem_of_fmap in H as ([k y] & -> & H).
  apply elem_of_map_to_list in H. exists k. exact H.
Qed.

Lemma page_of_descending skip limit d :
  StronglySorted newerOrEqual (page_of skip limit d).
Proof.
  unfold page_of. pose proof (sorted_descending d) as H.
  rewrite <- (take_drop (Z.to_nat skip) (sorted d)) in H.
  apply StronglySorted_app_1_r in H.
  destruct (limit =? 0)%Z; [exact H|].
  rewrite <- (take_drop (Z.to_nat (Z.abs limit))
                (drop (Z.to_nat skip) (sorted d))) in H.
  apply StronglySorted_app_1_l in H. exact H.
Qed.

Lemma page_of_In skip limit d x :
  In x (page_of skip limit d) -> exists k, d !! k = Some x.
Proof.
  intros H. apply sorted_In. unfold page_of in H.
  apply list_elem_of_In. apply list_elem_of_In in H.
  destruct (limit =? 0)%Z.
  - exact (subseteq_drop _ _ _ H).
  - apply (subseteq_drop (Z.to_nat skip)).
    exact (subseteq_take _ _ _ H).
Qed.

(** What [listSubmissions] does, with the monad unfolded. *)
Lemma listSubmissions_cases qpage qlimit w :
  listSubmissions qpage qlimit w =
  let page := parseInt_or qpage 1 in
  let limit := parseInt_or qlimit 10 in
  let skip := ((page - 1) * limit)%Z in
  let w1 calls' := mkWorld (docs w) (clock w) (nextId w) (fault w) calls' in
  match fault w with
  | Some m =>
      (inr (mkResponse 500
              (Failure "Failed to fetch submissions" None (Some m))),
       w1 (CallFind skip limit :: calls w))
  | None =>
      if (skip <? 0)%Z then
        (inr (mkResponse 500
                (Failure "Failed to fetch submissions" None
                   (Some "skip value must be non-negative"))),
         w1 (CallFind skip limit :: calls w))
      else
        let data := page_of skip limit (docs w) in
        let total := Z.of_nat (size (docs w)) in
        (inr (mkResponse 200
                (Listing data
                   (mkPagination page (ceilDiv total limit)
                      (skip + Z.of_nat (length data) <? total)%Z))),
         w1 (CallCount :: CallFind skip limit :: calls w))
  end.
Proof.
  unfold listSubmissions, tryCatch, bind, find, countDocuments, bind,
    storeCall, getDocs, json, ret, throw, page_of. simpl.
  destruct (fault w) eqn:Hf; simpl; [reflexivity|].
  destruct (_ <? 0)%Z; simpl; reflexivity.
Qed.

(** C4.  With [page=2] and [limit=5] on a store of exactly 12 records (that
    answers), the listing returns 5 records with [current = 2], [total = 3]
    and [hasMore = true]; absent parameters count as 1 and 10; and the
    records of every listing are in descending order of [submittedAt] and
    come from the store. *)
Theorem list_pagination_contract :
  (forall w,
      size (docs w) = 12 -> fault w = None ->
      exists data,
        fst (listSubmissions (Some (js "2")) (Some (js "5")) w) =
          inr (mkResponse 200 (Listing data (mkPagination 2 3 true)))
        /\ length data = 5
        /\ data = take 5 (drop 5 (sorted (docs w)))
        /\ StronglySorted newerOrEqual data)
  /\ (forall w,
         listSubmissions None None w =
         listSubmissions (Some (js "1")) (Some (js "10")) w)
  /\ (forall w,
         fault w = None ->
         fst (listSubmissions None None w) =
           inr (mkResponse 200
                  (Listing (take 10 (sorted (docs w)))
                     (mkPagination 1
                        (ceilDiv (Z.of_nat (size (docs w))) 10)
                        (Z.of_nat (length (take 10 (sorted (docs w))))
                         <? Z.of_nat (size (docs w)))%Z))))
  /\ (forall qpage qlimit w data pg,
         fst (listSubmissions qpage qlimit w) =
           inr (mkResponse 200 (Listing data pg)) ->
         StronglySorted newerOrEqual data
         /\ (forall x, In x data -> exists k, docs w !! k = Some x)
         /\ current pg = parseInt_or qpage 1
         /\ docs (snd (listSubmissions qpage qlimit w)) = docs w).
Proof.
  split; [|split; [|split]].
  - intros w Hsize Hfault. rewrite listSubmissions_cases, Hfault.
    change (parseInt_or (Some (js "2")) 1) with 2%Z.
    change (parseInt_or (Some (js "5")) 10) with 5%Z.
    cbv zeta. change ((2 - 1) * 5 <? 0)%Z with false. cbv iota.
    assert (Hpage : page_of ((2 - 1) * 5) 5 (docs w)
                    = take 5 (drop 5 (sorted (docs w)))) by reflexivity.
    assert (Hlen : length (take 5 (drop 5 (sorted (docs w)))) = 5).
    { rewrite length_take_le; [reflexivity|].
      rewrite length_drop, sorted_length, Hsize. lia. }
    exists (take 5 (drop 5 (sorted (docs w)))).
    split; [rewrite Hpage, Hlen, Hsize; reflexivity|].
    split; [exact Hlen|]. split; [reflexivity|].
    rewrite <- Hpage. apply page_of_descending.
  - intros w. reflexivity.
  - intros w Hfault. rewrite listSubmissions_cases, Hfault.
    change (parseInt_or None 1) with 1%Z.
    change (parseInt_or None 10) with 10%Z. reflexivity.
  - intros qpage qlimit w data pg. rewrite listSubmissions_cases. cbv zeta.
    destruct (fault w); [discriminate|].
    destruct (_ <? 0)%Z; [discriminate|]. simpl.
    intros H. injection H as <- <-. simpl.
    split; [apply page_of_descending|].
    split; [intros x; apply page_of_In|]. split; reflexivity.
Qed.

End Listing.

Module ListingRuns.

Import Server Samples Listing.

Lemma list_pagination_contract_witness :
  exists data,
    fst (listSubmissions (Some (js "2")) (Some (js "5")) twelveWorld) =
      inr (mkResponse 200 (Listing data (mkPagination 2 3 true)))
    /\ length data = 5
    /\ data = take 5 (drop 5 (sorted (docs twelveWorld)))
    /\ StronglySorted newerOrEqual data.
Proof.
  apply (proj1 list_pagination_contract twelveWorld);
    vm_compute; reflexivity.
Defined.

(** The second page of five: the records 7 down to 3. *)
Example second_page_ids :
  map _id (take 5 (drop 5 (sorted (docs twelveWorld)))) = [7; 6; 5; 4; 3]%N.
Proof. vm_compute. reflexivity. Qed.

End ListingRuns.

(** ** Get and Delete by identifier *)

Module ById.

Import Server Samples.

Local Open Scope string_scope.

Section Identifiers.

Variable isValid : list N -> bool.
Variable castId : list N -> N.

Lemma getSubmission_cases id w :
  getSubmission isValid castId id w =
  if isValid id then
    match fault w with
    | Some m =>
        (inr (mkResponse 500
                (Failure "Failed to fetch submission" None (Some m))),
         logged (CallFindById (castId id)) w)
    | None =>
        (inr match docs w !! castId id with
             | None => notFound
             | Some doc => mkResponse 200 (Stored None doc)
             end,
         logged (CallFindById (castId id)) w)
    end
  else (inr invalidId, w).
Proof.
  unfold getSubmission, tryCatch, bind, findById, bind, storeCall, getDocs,
    json, ret, logged. destruct (isValid id); simpl; [|reflexivity].
  destruct (fault w); simpl; [reflexivity|].
  destruct (docs w !! castId id); reflexivity.
Qed.

Lemma deleteSubmission_cases id w :
  deleteSubmission isValid castId id w =
  if isValid id then
    match fault w with
    | Some m =>
        (inr (mkResponse 500
                (Failure "Failed to delete submission" None (Some m))),
         logged (CallFindByIdAndDelete (castId id)) w)
    | None =>
        match docs w !! castId id with
        | None => (inr notFound, logged (CallFindByIdAndDelete (castId id)) w)
        | Some doc =>
            (inr (mkResponse 200 (Done "Submission deleted successfully")),
             mkWorld (delete (castId id) (docs w)) (clock w) (nextId w)
               (fault w) (CallFindByIdAndDelete (castId id) :: calls w))
        end
    end
  else (inr invalidId, w).
Proof.
  unfold deleteSubmission, tryCatch, bind, findByIdAndDelete, bind, storeCall,
    getDocs, setDocs, json, ret, logged. destruct (isValid id); simpl; [|reflexivity].
  destruct (fault w); simpl; [reflexivity|].
  destruct (docs w !! castId id); reflexivity.
Qed.

(** C5.  A malformed identifier is answered 400 by both handlers with the
    world untouched, so no store call was issued and the answer is not the
    404; a well-formed identifier that the store (when it answers) does not
    hold is answered with one and the same 404 by both; and Delete of a
    stored identifier removes that record, leaves the others, and
    confirms. *)
Theorem by_id_contract id w :
  (isValid id = false ->
   getSubmission isValid castId id w = (inr invalidId, w)
   /\ deleteSubmission isValid castId id w = (inr invalidId, w)
   /\ calls (snd (getSubmission isValid castId id w)) = calls w
   /\ calls (snd (deleteSubmission isValid castId id w)) = calls w
   /\ invalidId <> notFound)
  /\ (isValid id = true -> fault w = None -> docs w !! castId id = None ->
      fst (getSubmission isValid castId id w) = inr notFound
      /\ fst (deleteSubmission isValid castId id w) = inr notFound
      /\ docs (snd (deleteSubmission isValid castId id w)) = docs w)
  /\ (forall doc,
         isValid id = true -> fault w = None ->
         docs w !! castId id = Some doc ->
         fst (getSubmission isValid castId id w)
           = inr (mkResponse 200 (Stored None doc))
         /\ fst (deleteSubmission isValid castId id w)
            = inr (mkResponse 200 (Done "Submission deleted successfully"))
         /\ docs (snd (deleteSubmission isValid castId id w))
            = delete (castId id) (docs w)
         /\ docs (snd (deleteSubmission isValid castId id w)) !! castId id
            = None
         /\ (forall k, k <> castId id ->
               docs (snd (deleteSubmission isValid castId id w)) !! k
               = docs w !! k)).
Proof.
  rewrite getSubmission_cases, deleteSubmission_cases.
  split; [|split].
  - intros ->. simpl. repeat split; try reflexivity. discriminate.
  - intros -> -> ->. simpl. auto.
  - intros doc -> -> ->. simpl. repeat split; try reflexivity.
    + apply lookup_delete_eq.
    + intros k Hk. apply lookup_delete_ne. congruence.
Qed.

End Identifiers.

Lemma by_id_contract_witness :
  getSubmission hex24 hexNumber (js "not-an-id") twelveWorld
    = (inr invalidId, twelveWorld)
  /\ fst (deleteSubmission hex24 hexNumber (js "0000000000000000000000ff")
            twelveWorld) = inr notFound
  /\ docs (snd (deleteSubmission hex24 hexNumber
                  (js "00000000000000000000000c") twelveWorld)) !! 12%N = None.
Proof.
  split; [|split].
  - apply (proj1 (by_id_contract hex24 hexNumber (js "not-an-id")
                    twelveWorld)). reflexivity.
  - apply (proj1 (proj2 (by_id_contract hex24 hexNumber
                           (js "0000000000000000000000ff") twelveWorld)));
      vm_compute; reflexivity.
  - apply (proj2 (proj2 (by_id_contract hex24 hexNumber
                           (js "00000000000000000000000c") twelveWorld))
             (docAt 12)); vm_compute; reflexivity.
Defined.

End ById.

(** ** Form validity and the submit handler *)

Module FormValidity.

Import Samples ValidatorFacts.

Lemma allValid_spec fd :
  allValid fd = true <->
  (isValid (validateName (name fd)) = true
   /\ isValid (validateProductLine (productLine fd)) = true
   /\ isValid (validateERCode (erCode fd)) = true
   /\ isValid (validateDescription (description fd)) = true
   /\ isValid (validateModelNumber (modelNumber fd)) = true)
  /\ (trim (name fd) <> [] /\ trim (productLine fd) <> []
      /\ trim (erCode fd) <> [] /\ trim (description fd) <> []
      /\ trim (modelNumber fd) <> []).
Proof.
  unfold allValid, validations, values. simpl forallb.
  rewrite !andb_true_iff, !negb_true_iff.
  assert (Hb : forall v, JS.eqb (trim v) [] = false <-> trim v <> []).
  { intros v. destruct (JS.eqb (trim v) []) eqn:E.
    - apply eqb_spec in E. split; [discriminate | congruence].
    - split; [|reflexivity]. intros _ H. apply eqb_spec in H. congruence. }
  rewrite !Hb. tauto.
Qed.

Lemma validityEffect_settled s : settled (validityEffect s).
Proof. reflexivity. Qed.

Lemma mount_settled e s : mount e = Some s -> settled s.
Proof.
  unfold mount. destruct (loadDraft e); intros H; try discriminate;
    injection H as <-; reflexivity.
Qed.

Section Service.

Variable respond : nat -> PostBody -> Outcome.

Lemma handleSubmit_formData s e :
  formData (fst (handleSubmit respond s e)) = formData s
  /\ isFormValid (fst (handleSubmit respond s e)) = isFormValid s.
Proof.
  unfold handleSubmit. destruct (isFormValid s) eqn:Hv; [|simpl; auto].
  destruct (submitForm respond (formData s) defaultRetries e) as [r e1].
  destruct (IApiResponse.success r); simpl; auto.
Qed.

Lemma handle_settled ev s e :
  settled s -> settled (fst (handle respond ev s e)).
Proof.
  unfold settled. intros H. destruct ev; simpl.
  - reflexivity.
  - unfold handleSaveDraft. destruct (writable e); exact H.
  - reflexivity.
  - destruct (handleSubmit_formData s e) as [-> ->]. exact H.
  - exact H.
Qed.

Lemma run_settled evs :
  forall s e, settled s -> settled (fst (run respond evs s e)).
Proof.
  induction evs as [|ev evs IH]; intros s e H; simpl; [exact H|].
  pose proof (handle_settled ev s e H) as H1.
  destruct (handle respond ev s e) as [s1 e1]. apply IH. exact H1.
Qed.

Lemma handleSubmit_invalid s e :
  isFormValid s = false -> handleSubmit respond s e = (s, e).
Proof. unfold handleSubmit. intros ->. reflexivity. Qed.

End Service.

(** C7.  The form is valid exactly when each of the five validators
    accepts its field and each field is non-blank after trimming; the state
    of the mounted component always holds that value in [isFormValid]; and
    the submit handler of a form that is not valid (the empty form among
    them) changes nothing and posts nothing. *)
Theorem form_validity_gates_submit (respond : nat -> PostBody -> Outcome) :
  (forall fd,
      allValid fd = true <->
      (isValid (validateName (name fd)) = true
       /\ isValid (validateProductLine (productLine fd)) = true
       /\ isValid (validateERCode (erCode fd)) = true
       /\ isValid (validateDescription (description fd)) = true
       /\ isValid (validateModelNumber (modelNumber fd)) = true)
      /\ (trim (name fd) <> [] /\ trim (productLine fd) <> []
          /\ trim (erCode fd) <> [] /\ trim (description fd) <> []
          /\ trim (modelNumber fd) <> []))
  /\ (forall e0 s0 evs,
         mount e0 = Some s0 ->
         isFormValid (fst (run respond evs s0 e0))
         = allValid (formData (fst (run respond evs s0 e0))))
  /\ (forall s e,
         isFormValid s = false ->
         handleSubmit respond s e = (s, e)
         /\ sent (snd (handleSubmit respond s e)) = sent e)
  /\ (forall e0 s0 evs,
         mount e0 = Some s0 ->
         let s := fst (run respond evs s0 e0) in
         let e := snd (run respond evs s0 e0) in
         allValid (formData s) = false ->
         sent (snd (handleSubmit respond s e)) = sent e)
  /\ allValid emptyForm = false
  /\ (forall e,
         handleSubmit respond (validityEffect initialState) e
         = (validityEffect initialState, e)).
Proof.
  split; [exact allValid_spec|]. split; [|split; [|split; [|split]]].
  - intros e0 s0 evs Hm. apply run_settled, (mount_settled e0), Hm.
  - intros s e H. rewrite (handleSubmit_invalid respond s e H). auto.
  - intros e0 s0 evs Hm s e Hinv.
    assert (Hs : settled s)
      by (apply run_settled, (mount_settled e0), Hm).
    unfold settled in Hs. rewrite Hinv in Hs.
    rewrite (handleSubmit_invalid respond s e Hs). reflexivity.
  - reflexivity.
  - intros e. apply handleSubmit_invalid. reflexivity.
Qed.

Lemma form_validity_gates_submit_witness :
  mount freshEnv = Some (validityEffect initialState)
  /\ sent (snd (handleSubmit flakyService
                  (fst (run flakyService
                          [Input FName (js "Jane Doe"); Submit]
                          (validityEffect initialState) freshEnv))
                  (snd (run flakyService
                          [Input FName (js "Jane Doe"); Submit]
                          (validityEffect initialState) freshEnv))))
     = []
  /\ sent (snd (handleSubmit flakyService (validityEffect initialState)
                  freshEnv)) = sent freshEnv.
Proof.
  destruct (form_validity_gates_submit flakyService)
    as (_ & _ & Hinvalid & Hrun & _).
  split; [reflexivity|]. split.
  - apply (Hrun freshEnv (validityEffect initialState)
             [Input FName (js "Jane Doe"); Submit]); reflexivity.
  - apply Hinvalid. reflexivity.
Defined.

(** Two spaces pass the name validator, ten spaces the description
    validator: the trimming clause is what keeps such a form invalid. *)
Example blank_fields_pass_validators :
  isValid (validateName (js "  ")) = true
  /\ isValid (validateDescription (js "          ")) = true
  /\ allValid
       (mkFormData (js "  ") (js "AB-1234") (js "ER123456")
          (js "          ") (js "AB1234C")) = false.
Proof. repeat split; reflexivity. Qed.

End FormValidity.

(** ** JSON: what [stringify] writes, [parse] reads back *)

Module JsonFacts.

Import ValidatorFacts.

Local Open Scope N_scope.

Lemma hexVal_hexDigit d : d < 16 -> hexVal (hexDigit d) = Some d.
Proof.
  intros Hd. unfold hexVal, digitVal, hexDigit, isDigit, isLower, isUpper,
    in_range.
  destruct (N.ltb_spec d 10) as [H|H].
  - settle_cmp. simpl. replace (48 + d - 48) with d by lia. settle_cmp.
    reflexivity.
  - settle_cmp. simpl. replace (87 + d - 97 + 10) with d by lia. settle_cmp.
    reflexivity.
Qed.

Lemma hex_digits_value c :
  c < 65536 ->
  (c / 4096 mod 16) * 4096 + (c / 256 mod 16) * 256 + (c / 16 mod 16) * 16
  + c mod 16 = c.
Proof.
  intros H.
  assert (H1 := N.Div0.div_mod c 16).
  assert (H2 := N.Div0.div_mod (c / 16) 16).
  assert (H3 := N.Div0.div_mod (c / 256) 16).
  rewrite N.Div0.div_div in H2. change (16 * 16) with 256 in H2.
  replace (c / 256 / 16) with (c / 4096) in H3
    by (rewrite N.Div0.div_div; reflexivity).
  assert (H4 : c / 4096 < 16) by (apply N.Div0.div_lt_upper_bound; lia).
  rewrite (N.mod_small (c / 4096) 16 H4). lia.
Qed.

Lemma mod16_lt c : c mod 16 < 16.
Proof. apply N.mod_lt. discriminate. Qed.

Lemma parseChars_unicode c rest :
  c < 65536 ->
  parseChars (unicodeEscape c ++ rest) = consFst c (parseChars rest).
Proof.
  intros Hc. unfold unicodeEscape. cbn [app parseChars].
  change (92 =? 34) with false. change (92 =? 92) with true.
  change (117 =? 117) with true. cbv iota. unfold hex4Val.
  rewrite !hexVal_hexDigit by apply mod16_lt.
  rewrite (hex_digits_value c Hc). reflexivity.
Qed.

(** A character that is copied as it is. *)
Lemma parseChars_raw c rest :
  c <> 34 -> c <> 92 -> 32 <= c ->
  parseChars (c :: rest) = consFst c (parseChars rest).
Proof.
  intros H1 H2 H3. cbn [parseChars]. settle_cmp. reflexivity.
Qed.

Lemma parseChars_quoteUnit c rest :
  isHigh c = false ->
  parseChars (quoteUnit c ++ rest) = consFst c (parseChars rest).
Proof.
  intros Hh. unfold quoteUnit.
  destruct (N.eqb_spec c 8) as [->|H8]; [reflexivity|].
  destruct (N.eqb_spec c 9) as [->|H9]; [reflexivity|].
  destruct (N.eqb_spec c 10) as [->|H10]; [reflexivity|].
  destruct (N.eqb_spec c 12) as [->|H12]; [reflexivity|].
  destruct (N.eqb_spec c 13) as [->|H13]; [reflexivity|].
  destruct (N.eqb_spec c 34) as [->|H34]; [reflexivity|].
  destruct (N.eqb_spec c 92) as [->|H92]; [reflexivity|].
  rewrite Hh, orb_false_r.
  destruct (N.ltb_spec c 32) as [Hlt|Hge]; simpl orb.
  - apply parseChars_unicode. lia.
  - destruct (isLow c) eqn:Hl.
    + apply parseChars_unicode. apply in_range_spec in Hl. lia.
    + apply parseChars_raw; assumption.
Qed.

Lemma quoteBody_cons h t :
  quoteBody (h :: t) =
  if isHigh h then
    match t with
    | l :: t' =>
        if isLow l then h :: l :: quoteBody t'
        else (unicodeEscape h ++ quoteBody t)%list
    | [] => unicodeEscape h
    end
  else (quoteUnit h ++ quoteBody t)%list.
Proof. reflexivity. Qed.

(** The string token that [quote] writes is read back as the string. *)
Lemma parseChars_quoteBody s :
  forall rest, parseChars (quoteBody s ++ 34 :: rest) = Some (s, rest).
Proof.
  assert (H : forall n s, (length s <= n)%nat ->
                forall rest,
                  parseChars (quoteBody s ++ 34 :: rest) = Some (s, rest)).
  2:{ apply (H (length s)). lia. }
  clear s. induction n as [|n IH]; intros s Hn rest.
  { destruct s; [reflexivity | simpl in Hn; lia]. }
  destruct s as [|h t]; [reflexivity|]. simpl in Hn.
  rewrite quoteBody_cons. destruct (isHigh h) eqn:Hh.
  - pose proof (proj1 (in_range_spec _ _ _) Hh) as Hr.
    destruct t as [|l t'].
    + rewrite parseChars_unicode by lia. reflexivity.
    + destruct (isLow l) eqn:Hl.
      * pose proof (proj1 (in_range_spec _ _ _) Hl) as Hrl.
        change ((h :: l :: quoteBody t') ++ 34 :: rest)%list
          with (h :: l :: (quoteBody t' ++ 34 :: rest))%list.
        rewrite parseChars_raw by lia. rewrite parseChars_raw by lia.
        rewrite IH by (simpl in Hn; lia). reflexivity.
      * rewrite <- app_assoc, parseChars_unicode by lia.
        rewrite IH by lia. reflexivity.
  - rewrite <- app_assoc, parseChars_quoteUnit by exact Hh.
    rewrite IH by lia. reflexivity.
Qed.

End JsonFacts.

(** ** Saving a draft and loading it again *)

Module Draft.

Import Samples ValidatorFacts JsonFacts.

Lemma parseValue_string fuel v rest :
  parseValue (S fuel) (quote v ++ rest) = Some (JStr v, rest).
Proof.
  unfold quote. rewrite <- !app_assoc.
  change ([34%N] ++ quoteBody v ++ [34%N] ++ rest)
    with (34%N :: (quoteBody v ++ 34%N :: rest)).
  cbn [parseValue skipWs dropWhile]. change (isWs 34) with false. cbv iota.
  change (34 =? 34)%N with true. cbv iota.
  rewrite parseChars_quoteBody. reflexivity.
Qed.

(** One member, when the text starts with the quote of its key. *)
Lemma parseMembers_step fuel t :
  parseMembers (S fuel) (34%N :: t) =
  match parseChars t with
  | Some (key, r) =>
      match skipWs r with
      | c1 :: r1 =>
          if (c1 =? 58)%N then
            match parseValue fuel r1 with
            | Some (v, r2) =>
                match skipWs r2 with
                | c2 :: r3 =>
                    if (c2 =? 125)%N then Some ([(key, v)], r3)
                    else if (c2 =? 44)%N then
                      match parseMembers fuel r3 with
                      | Some (ms, r4) => Some ((key, v) :: ms, r4)
                      | None => None
                      end
                    else None
                | [] => None
                end
            | None => None
            end
          else None
      | [] => None
      end
  | None => None
  end.
Proof. reflexivity. Qed.

(** An object, when the text after the brace starts with a quote. *)
Lemma parseValue_object_step fuel t :
  parseValue (S fuel) (123%N :: 34%N :: t) =
  match parseMembers fuel (34%N :: t) with
  | Some (ms, r) => Some (JObj ms, r)
  | None => None
  end.
Proof. reflexivity. Qed.

Lemma member_head k v tail :
  member (k, v) ++ tail
  = 34%N :: (quoteBody k ++ 34%N :: 58%N :: (quote v ++ tail)).
Proof.
  unfold member. simpl fst. simpl snd. rewrite <- !app_assoc.
  unfold quote at 1. rewrite <- !app_assoc. reflexivity.
Qed.

Lemma parseMembers_members l :
  l <> [] ->
  forall fuel rest,
    length l < fuel ->
    parseMembers fuel (members l ++ 125%N :: rest)
    = Some (map (fun kv => (fst kv, JStr (snd kv))) l, rest).
Proof.
  induction l as [|[k v] l IH]; [congruence|]. intros _ fuel rest Hf.
  destruct fuel as [|[|fuel]]; [simpl in Hf; lia | simpl in Hf; lia |].
  destruct l as [|kv2 l'].
  - simpl members. rewrite member_head, parseMembers_step.
    rewrite parseChars_quoteBody.
    change (skipWs (58%N :: (quote v ++ 125%N :: rest)))
      with (58%N :: (quote v ++ 125%N :: rest)).
    change (58 =? 58)%N with true. cbv iota.
    rewrite parseValue_string. reflexivity.
  - change (members ((k, v) :: kv2 :: l'))
      with (member (k, v) ++ [44%N] ++ members (kv2 :: l')).
    rewrite <- !app_assoc. rewrite member_head, parseMembers_step.
    rewrite parseChars_quoteBody.
    change (skipWs (58%N :: (quote v ++ [44%N] ++ members (kv2 :: l')
                               ++ 125%N :: rest)))
      with (58%N :: (quote v ++ 44%N :: (members (kv2 :: l')
                                           ++ 125%N :: rest))).
    change (58 =? 58)%N with true. cbv iota.
    rewrite parseValue_string.
    change (skipWs (44%N :: (members (kv2 :: l') ++ 125%N :: rest)))
      with (44%N :: (members (kv2 :: l') ++ 125%N :: rest)).
    change (44 =? 125)%N with false. change (44 =? 44)%N with true. cbv iota.
    rewrite IH; [reflexivity | discriminate | simpl in Hf |- *; lia].
Qed.

Lemma members_head k v l : exists t, members ((k, v) :: l) = 34%N :: t.
Proof.
  destruct l; simpl; unfold member, quote; simpl; eexists; reflexivity.
Qed.

Lemma member_length kv : 5 <= length (member kv).
Proof. unfold member, quote. rewrite !length_app. cbn [length]. lia. Qed.

Lemma members_length l : length l <= length (members l).
Proof.
  induction l as [|[k v] l IH]; [simpl; lia|].
  pose proof (member_length (k, v)) as Hm.
  destruct l as [|kv2 l'].
  - change (members [(k, v)]) with (member (k, v)). cbn [length]. lia.
  - change (members ((k, v) :: kv2 :: l'))
      with (member (k, v) ++ [44%N] ++ members (kv2 :: l')).
    rewrite !length_app. cbn [length] in *. lia.
Qed.

Lemma parse_stringifyObject l :
  l <> [] -> parse (stringifyObject l) = Some (asJson l).
Proof.
  intros Hne. unfold parse, stringifyObject.
  pose proof (members_length l) as Hlen.
  destruct l as [|[k v] l']; [congruence|].
  destruct (members_head k v l') as (t & Ht).
  change ([123%N] ++ members ((k, v) :: l') ++ [125%N])
    with (123%N :: (members ((k, v) :: l') ++ [125%N])).
  remember (length (123%N :: (members ((k, v) :: l') ++ [125%N]))) as n
    eqn:Hn.
  assert (Hfuel : length ((k, v) :: l') < n).
  { subst n. cbn [length]. rewrite length_app. cbn [length] in *. lia. }
  assert (Hstep :
            parseValue (S n) (123%N :: (members ((k, v) :: l') ++ [125%N]))
            = match parseMembers n (members ((k, v) :: l') ++ [125%N]) with
              | Some (ms, r) => Some (JObj ms, r)
              | None => None
              end).
  { rewrite Ht. apply parseValue_object_step. }
  rewrite Hstep.
  rewrite (parseMembers_members ((k, v) :: l') Hne n [] Hfuel).
  reflexivity.
Qed.

Lemma asFormData_entries fd : asFormData (asJson (entries fd)) = Some fd.
Proof. destruct fd. vm_compute. reflexivity. Qed.

Lemma stringify_truthy fd : truthy (stringify fd) = true.
Proof. reflexivity. Qed.

(** Reading back what was saved. *)
Lemma load_saved fd (e : Env) :
  localStorage e !! DRAFT_KEY = Some (stringify fd) ->
  loadDraft e = Restored fd.
Proof.
  intros H. unfold loadDraft. rewrite H, stringify_truthy.
  unfold stringify. rewrite parse_stringifyObject by discriminate.
  rewrite asFormData_entries. reflexivity.
Qed.

(** C8.  When the browser lets the draft be written, saving it stores the
    JSON text of the field map under the fixed key; parsing that text gives
    back an object with the same five fields, and the component that mounts
    afterwards starts from exactly the saved field map. *)
Theorem draft_round_trip s e :
  writable e = true ->
  let e1 := snd (handleSaveDraft s e) in
  localStorage e1 !! DRAFT_KEY = Some (stringify (formData s))
  /\ parse (stringify (formData s)) = Some (asJson (entries (formData s)))
  /\ asFormData (asJson (entries (formData s))) = Some (formData s)
  /\ loadDraft e1 = Restored (formData s)
  /\ exists s', mount e1 = Some s'
                /\ formData s' = formData s
                /\ name (formData s') = name (formData s)
                /\ productLine (formData s') = productLine (formData s)
                /\ erCode (formData s') = erCode (formData s)
                /\ description (formData s') = description (formData s)
                /\ modelNumber (formData s') = modelNumber (formData s)
                /\ hasDraft s' = true.
Proof.
  intros Hw. unfold handleSaveDraft. rewrite Hw. cbv zeta. simpl snd.
  assert (Hkey : localStorage
                   (setTimeout ResetDraftSaved 3000
                      (toast ToastSuccess "Draft Saved!"
                         "Your progress has been preserved."
                         (setStorage
                            (<[DRAFT_KEY:=stringify (formData s)]>
                               (localStorage e)) e))) !! DRAFT_KEY
                 = Some (stringify (formData s))).
  { simpl. apply lookup_insert_eq. }
  split; [exact Hkey|].
  split; [apply parse_stringifyObject; discriminate|].
  split; [apply asFormData_entries|].
  split; [apply load_saved, Hkey|].
  unfold mount. rewrite (load_saved _ _ Hkey).
  eexists. split; [reflexivity|]. simpl. repeat split; reflexivity.
Qed.

Lemma draft_round_trip_witness :
  loadDraft
    (snd (handleSaveDraft
            (handleInputChange FDescription
               [34; 92; 10; 55357; 56832; 56832; 233]%N initialState)
            freshEnv))
  = Restored (mkFormData [] [] [] [34; 92; 10; 55357; 56832; 56832; 233]%N []).
Proof.
  apply (draft_round_trip
           (handleInputChange FDescription
              [34; 92; 10; 55357; 56832; 56832; 233]%N initialState)
           freshEnv).
  reflexivity.
Defined.

End Draft.

(* ================================================================== *)
(** * Part III: further properties of the code                        *)
(* ================================================================== *)

(** ** The other validators, and the client against the schema *)

Module MoreValidators.

Import Server Samples RegExpFacts Shapes ValidatorFacts Create.

Local Open Scope string_scope.

(** X1.  The ER-code validator accepts exactly the strings made of [ER]
    and six decimal digits (eight characters in all). *)
Theorem validateERCode_exact v :
  isValid (validateERCode v) = true <->
  exists digits,
    v = (js "ER" ++ digits)%list /\ length digits = 6
    /\ forallb isDigit digits = true.
Proof. rewrite validateERCode_valid. apply erCode_re_spec. Qed.

(** X2.  The model-number validator accepts exactly two capital letters,
    four digits and at most one more capital letter; an accepted value has
    six or seven characters. *)
Theorem validateModelNumber_exact v :
  (isValid (validateModelNumber v) = true <->
   exists letters digits suffix,
     v = (letters ++ digits ++ suffix)%list
     /\ length letters = 2 /\ forallb isUpper letters = true
     /\ length digits = 4 /\ forallb isDigit digits = true
     /\ length suffix <= 1 /\ forallb isUpper suffix = true)
  /\ (isValid (validateModelNumber v) = true ->
      length v = 6 \/ length v = 7).
Proof.
  split; [rewrite validateModelNumber_valid; apply modelNumber_re_spec|].
  intros H. apply validateModelNumber_valid, modelNumber_re_spec in H
    as (a & d & x & -> & Ha & _ & Hd & _ & Hx & _).
  rewrite !length_app. lia.
Qed.

Lemma validateModelNumber_exact_witness :
  length (js "AB1234C") = 6 \/ length (js "AB1234C") = 7.
Proof.
  apply (proj2 (validateModelNumber_exact (js "AB1234C"))). reflexivity.
Defined.

Lemma modelNumber_path v :
  pathError (s_modelNumber formSubmissionSchema) (Some v) =
  if truthy v then
    if test modelNumber_re v then None
    else
      Some "Model Number format must be 2 letters + 4 digits + optional letter"
  else Some "Model Number is required".
Proof.
  unfold formSubmissionSchema. cbn [s_modelNumber pathError violation].
  destruct (truthy v); [|reflexivity].
  destruct (test modelNumber_re v); reflexivity.
Qed.

Lemma test_false_not_lang r v : test r v = false -> ~ lang r v.
Proof. intros H L. apply test_spec in L. congruence. Qed.

(** X3.  On one and the same string the client validator and the schema
    path agree for the ER code, the description (10 to 500 characters, both
    bounds included) and the model number; for the name the schema accepts
    what the client accepts, up to 100 characters. *)
Theorem client_and_schema_agree v :
  (isValid (validateERCode v) = true <->
   pathError (s_erCode formSubmissionSchema) (Some v) = None)
  /\ (isValid (validateDescription v) = true <->
      pathError (s_description formSubmissionSchema) (Some v) = None)
  /\ (isValid (validateDescription v) = true <-> 10 <= length v <= 500)
  /\ (isValid (validateModelNumber v) = true <->
      pathError (s_modelNumber formSubmissionSchema) (Some v) = None)
  /\ (pathError (s_name formSubmissionSchema) (Some v) = None <->
      isValid (validateName v) = true /\ length v <= 100).
Proof.
  split; [|split; [|split; [|split]]].
  - rewrite validateERCode_valid, erCode_path.
    destruct (truthy v) eqn:Ht.
    + destruct (test erCode_re v) eqn:E.
      * apply test_spec in E. tauto.
      * apply test_false_not_lang in E. split; [tauto | discriminate].
    + split; [|discriminate]. intros H.
      apply erCode_re_spec in H as (d & -> & _). discriminate.
  - rewrite validateDescription_valid, description_path.
    destruct v as [|c v]; [simpl; split; [lia | discriminate]|].
    remember (length (c :: v)) as n eqn:Hn. clear Hn. simpl truthy.
    destruct (Nat.ltb_spec n 10); [split; [lia | discriminate]|].
    destruct (Nat.ltb_spec 500 n); [split; [lia | discriminate]|].
    split; [reflexivity | lia].
  - apply validateDescription_valid.
  - rewrite validateModelNumber_valid, modelNumber_path.
    destruct (truthy v) eqn:Ht.
    + destruct (test modelNumber_re v) eqn:E.
      * apply test_spec in E. tauto.
      * apply test_false_not_lang in E. split; [tauto | discriminate].
    + split; [|discriminate]. intros H.
      apply modelNumber_re_spec in H as (a & d & x & -> & Ha & _).
      destruct a; [simpl in Ha; lia | discriminate].
  - rewrite validateName_valid, name_path.
    destruct v as [|c v].
    { simpl. split; [discriminate | intros [(H & _) _]; congruence]. }
    remember (c :: v) as s eqn:Hs.
    assert (Hne : s <> []) by (subst s; discriminate).
    assert (Ht : truthy s = true) by (subst s; reflexivity).
    rewrite Ht. clear Hs.
    destruct (Nat.ltb_spec (length s) 2);
      [split; [discriminate | intros [(_ & H2 & _) _]; lia]|].
    destruct (Nat.ltb_spec 100 (length s));
      [split; [discriminate | intros [_ H2]; lia]|].
    destruct (test name_re s) eqn:E.
    + apply test_spec in E. split; [intros _ | reflexivity].
      split; [auto | lia].
    + apply test_false_not_lang in E. split; [discriminate|].
      intros [(_ & _ & L) _]. contradiction.
Qed.

(** X4.  The progress count is at most 5; it is 5 exactly when all five
    validators accept; a valid form shows 5, but a form that shows 5 need not
    be valid (fields of white space only pass two of the validators). *)
Theorem progress_and_validity :
  (forall fd, getValidFieldsCount fd <= 5)
  /\ (forall fd,
         getValidFieldsCount fd = 5 <->
         isValid (validateName (name fd)) = true
         /\ isValid (validateProductLine (productLine fd)) = true
         /\ isValid (validateERCode (erCode fd)) = true
         /\ isValid (validateDescription (description fd)) = true
         /\ isValid (validateModelNumber (modelNumber fd)) = true)
  /\ (forall fd, allValid fd = true -> getValidFieldsCount fd = 5)
  /\ (exists fd, getValidFieldsCount fd = 5 /\ allValid fd = false).
Proof.
  assert (Hcount : forall fd,
             getValidFieldsCount fd <= 5
             /\ (getValidFieldsCount fd = 5 <->
                 isValid (validateName (name fd)) = true
                 /\ isValid (validateProductLine (productLine fd)) = true
                 /\ isValid (validateERCode (erCode fd)) = true
                 /\ isValid (validateDescription (description fd)) = true
                 /\ isValid (validateModelNumber (modelNumber fd)) = true)).
  { intros fd. unfold getValidFieldsCount, validations.
    destruct (validateName (name fd)) as [[|] ?],
      (validateProductLine (productLine fd)) as [[|] ?],
      (validateERCode (erCode fd)) as [[|] ?],
      (validateDescription (description fd)) as [[|] ?],
      (validateModelNumber (modelNumber fd)) as [[|] ?];
      vm_compute; (split; [lia|]); split; intros H;
      try discriminate; try tauto; try (destruct H as (?&?&?&?&?));
      try discriminate. }
  split; [intros fd; apply Hcount|]. split; [intros fd; apply Hcount|].
  split.
  - intros fd H. apply Hcount. unfold allValid in H.
    apply andb_true_iff in H as [H _]. unfold validations in H.
    cbn [forallb] in H. rewrite !andb_true_iff in H. tauto.
  - exists (mkFormData (js "  ") (js "AB-1234") (js "ER123456")
              (js "          ") (js "AB1234C")).
    split; reflexivity.
Qed.

Lemma progress_and_validity_witness :
  getValidFieldsCount filledForm = 5.
Proof.
  apply (proj1 (proj2 (proj2 progress_and_validity)) filledForm).
  reflexivity.
Defined.

End MoreValidators.

(** ** The life of a draft *)

Module DraftLife.

Import Samples ValidatorFacts JsonFacts Draft.

Lemma loadDraft_absent (e : Env) :
  localStorage e !! DRAFT_KEY = None -> loadDraft e = NoDraft.
Proof. intros H. unfold loadDraft. rewrite H. reflexivity. Qed.

Lemma loadDraft_storage (e1 e2 : Env) :
  localStorage e1 = localStorage e2 -> loadDraft e1 = loadDraft e2.
Proof. intros H. unfold loadDraft. rewrite H. reflexivity. Qed.

(** X5.  Clearing the draft twice is clearing it once; after it the form is
    empty and not valid, nothing is left under the key, a component that
    mounts finds no draft, and nothing was posted. *)
Theorem clearDraft_idempotent s e :
  handleClearDraft (fst (handleClearDraft s e)) (snd (handleClearDraft s e))
  = handleClearDraft s e
  /\ formData (fst (handleClearDraft s e)) = emptyForm
  /\ isFormValid (fst (handleClearDraft s e)) = false
  /\ hasDraft (fst (handleClearDraft s e)) = false
  /\ localStorage (snd (handleClearDraft s e)) !! DRAFT_KEY = None
  /\ mount (snd (handleClearDraft s e)) = Some (validityEffect initialState)
  /\ sent (snd (handleClearDraft s e)) = sent e.
Proof.
  unfold handleClearDraft. cbn [fst snd setFormData validityEffect formData
    isFormValid isSubmitted isDraftSaved hasDraft isSubmitting setStorage
    localStorage writable toasts timers now sent].
  split; [rewrite delete_delete_eq; reflexivity|].
  split; [reflexivity|]. split; [reflexivity|]. split; [reflexivity|].
  assert (Hnone : delete DRAFT_KEY (localStorage e) !! DRAFT_KEY = None)
    by apply lookup_delete_eq.
  split; [exact Hnone|]. split; [|reflexivity].
  unfold mount. rewrite loadDraft_absent; [reflexivity | exact Hnone].
Qed.

(** X6.  A second save replaces the first draft; clearing after a save
    leaves no draft; and a save the browser refuses leaves the draft that
    was there, and the form, as they were. *)
Theorem draft_lifecycle s1 s2 e :
  (writable e = true ->
   loadDraft (snd (handleSaveDraft s2 (snd (handleSaveDraft s1 e))))
   = Restored (formData s2))
  /\ loadDraft
       (snd (handleClearDraft (fst (handleSaveDraft s1 e))
               (snd (handleSaveDraft s1 e)))) = NoDraft
  /\ (writable e = false ->
      loadDraft (snd (handleSaveDraft s1 e)) = loadDraft e
      /\ fst (handleSaveDraft s1 e) = s1
      /\ localStorage (snd (handleSaveDraft s1 e)) = localStorage e).
Proof.
  split; [|split].
  - intros Hw. apply load_saved. unfold handleSaveDraft.
    repeat (rewrite Hw; simpl). apply lookup_insert_eq.
  - apply loadDraft_absent. unfold handleClearDraft. simpl.
    apply lookup_delete_eq.
  - intros Hw. unfold handleSaveDraft. rewrite Hw. simpl.
    split; [|split; reflexivity]. apply loadDraft_storage. reflexivity.
Qed.

Lemma draft_lifecycle_witness :
  loadDraft
    (snd (handleSaveDraft (handleInputChange FName (js "Jane") initialState)
            (snd (handleSaveDraft initialState freshEnv))))
  = Restored (mkFormData (js "Jane") [] [] [] []).
Proof.
  apply (proj1 (draft_lifecycle initialState
                  (handleInputChange FName (js "Jane") initialState)
                  freshEnv)).
  reflexivity.
Defined.

(** X7.  Two field maps never have the same draft text. *)
Theorem stringify_injective a b : stringify a = stringify b -> a = b.
Proof.
  intros H.
  assert (Ha : asFormData (asJson (entries a)) = Some a)
    by apply asFormData_entries.
  assert (Hb : asFormData (asJson (entries b)) = Some b)
    by apply asFormData_entries.
  assert (Hp : Some (asJson (entries a)) = Some (asJson (entries b))).
  { rewrite <- (parse_stringifyObject (entries a)) by discriminate.
    rewrite <- (parse_stringifyObject (entries b)) by discriminate.
    unfold stringify in H. rewrite H. reflexivity. }
  apply (inj Some) in Hp. rewrite Hp in Ha. congruence.
Qed.

Lemma stringify_injective_witness :
  mkFormData (js "a") [] [] [] [] = mkFormData (js "a") [] [] [] [].
Proof.
  apply (stringify_injective (mkFormData (js "a") [] [] [] [])
           (mkFormData (js "a") [] [] [] [])).
  reflexivity.
Defined.

End DraftLife.

(** ** Submitting: the draft, the retries, the real service *)

Module SubmitFlow.

Import Samples ValidatorFacts Retry DraftLife.

Local Open Scope string_scope.

Section Service.

Variable respond : nat -> PostBody -> Outcome.

(** [submitForm] touches neither the storage nor the toasts. *)
Lemma submitForm_storage fd retries :
  forall e,
    localStorage (snd (submitForm respond fd retries e)) = localStorage e
    /\ toasts (snd (submitForm respond fd retries e)) = toasts e.
Proof.
  induction retries as [|r IH]; intros e; simpl.
  - destruct (respond _ _); simpl; auto.
  - destruct (respond _ _) as [|err]; simpl; [auto|].
    destruct (isNetworkError err); simpl; [|auto].
    destruct (IH (sleep 1000 (post (mkPost fd (now e)) e))) as [-> ->].
    auto.
Qed.

(** X8.  A submission that succeeds removes the draft and marks the form
    submitted; one that fails keeps the draft and the flags and shows the
    failure's message; either way the fields stay as they were and the
    submitting flag is down again. *)
Theorem submit_and_draft s e :
  isFormValid s = true ->
  let result := fst (submitForm respond (formData s) defaultRetries e) in
  let s' := fst (handleSubmit respond s e) in
  let e' := snd (handleSubmit respond s e) in
  (IApiResponse.success result = true ->
   isSubmitted s' = true /\ hasDraft s' = false
   /\ localStorage e' !! DRAFT_KEY = None /\ loadDraft e' = NoDraft)
  /\ (IApiResponse.success result = false ->
      isSubmitted s' = isSubmitted s /\ hasDraft s' = hasDraft s
      /\ localStorage e' = localStorage e /\ loadDraft e' = loadDraft e
      /\ toasts e'
         = (ToastError, "Submission Failed", IApiResponse.message result)
             :: toasts e)
  /\ formData s' = formData s /\ isSubmitting s' = false.
Proof.
  intros Hv. unfold handleSubmit. rewrite Hv.
  destruct (submitForm_storage (formData s) defaultRetries e) as [Hls Hto].
  destruct (submitForm respond (formData s) defaultRetries e) as [r e1].
  cbn [fst snd] in *. destruct (IApiResponse.success r) eqn:Hs.
  - cbn [fst snd]. split; [|split; [discriminate | split; reflexivity]].
    intros _. split; [reflexivity|]. split; [reflexivity|].
    assert (Hnone : localStorage
                      (toast ToastSuccess "Form Submitted Successfully!"
                         "Your data has been saved to the database."
                         (setStorage (delete DRAFT_KEY (localStorage e1)) e1))
                    !! DRAFT_KEY = None) by (simpl; apply lookup_delete_eq).
    split; [exact Hnone | apply loadDraft_absent, Hnone].
  - cbn [fst snd]. split; [discriminate|]. split; [|split; reflexivity].
    intros _. split; [reflexivity|]. split; [reflexivity|].
    split; [exact Hls|]. split; [apply loadDraft_storage; exact Hls|].
    simpl. rewrite Hto. reflexivity.
Qed.

(** X9.  When every request fails with the network error, [submitForm]
    posts one request more than the retries it was given, waits 1000 ms
    before each but the first, and then reports failure. *)
Theorem submitForm_gives_up fd retries :
  (forall n b, exists err,
      respond n b = Rejected err /\ isNetworkError err = true) ->
  forall e,
    IApiResponse.success (fst (submitForm respond fd retries e)) = false
    /\ length (sent (snd (submitForm respond fd retries e)))
       = (length (sent e) + retries + 1)%nat
    /\ timers (snd (submitForm respond fd retries e))
       = (repeat (1000%Z, RetryWait) retries ++ timers e)%list
    /\ now (snd (submitForm respond fd retries e))
       = (now e + 1000 * Z.of_nat retries)%Z.
Proof.
  intros Hnet. induction retries as [|r IH]; intros e.
  - simpl. destruct (Hnet (length (sent e)) (mkPost fd (now e)))
      as (err & -> & _). simpl. repeat split; lia.
  - destruct (Hnet (length (sent e)) (mkPost fd (now e)))
      as (err & Hr & Hn).
    rewrite (submitForm_retry respond fd r e err Hr Hn).
    destruct (IH (sleep 1000 (post (mkPost fd (now e)) e)))
      as (Hs & Hl & Ht & Hc).
    split; [exact Hs|]. split; [rewrite Hl; simpl; lia|].
    split; [rewrite Ht; simpl; apply repeat_shift|].
    rewrite Hc. simpl. lia.
Qed.

End Service.

Lemma submit_and_draft_witness :
  isSubmitted
    (fst (handleSubmit flakyService
            (mkState filledForm true false false true false) freshEnv))
  = true.
Proof.
  apply (submit_and_draft flakyService
           (mkState filledForm true false false true false) freshEnv);
    reflexivity.
Defined.

Lemma submitForm_gives_up_witness :
  length (sent (snd (submitForm (fun _ _ => Rejected networkError)
                       filledForm 3 freshEnv))) = 4.
Proof.
  apply (submitForm_gives_up (fun _ _ => Rejected networkError) filledForm 3).
  intros n b. exists networkError. split; reflexivity.
Defined.

End SubmitFlow.

(** ** The form in front of the real service *)

Module EndToEndFacts.

Import Server Samples EndToEnd.
Import ValidatorFacts SanitizeFacts ServerFacts ProductLine Create
  FormValidity Retry.

Local Open Scope string_scope.

Section Wire.

Variable toISOString : Z -> list N.
Variable failedText : Z -> string.

(** Create on the body of a form the client holds valid. *)
Lemma create_valid_form fd t w :
  allValid fd = true ->
  exists errs,
    fst (createSubmission (wire toISOString (mkPost fd t)) w)
    = inr (mkResponse 400 (Failure "Validation failed" (Some errs) None))
    /\ In "Please select a valid product line" errs
    /\ docs (snd (createSubmission (wire toISOString (mkPost fd t)) w))
       = docs w.
Proof.
  intros Hv. apply allValid_spec in Hv
    as ((_ & Hpl & _) & (Tn & Tp & Te & Td & Tm)).
  set (req := wire toISOString (mkPost fd t)).
  assert (Hfd : presentFields (sanitizeInput req)
                = Some (mkFormData (sanitize (name fd))
                          (sanitize (productLine fd)) (sanitize (erCode fd))
                          (sanitize (description fd))
                          (sanitize (modelNumber fd)))).
  { apply presentFields_Some.
    exists (name fd), (productLine fd), (erCode fd), (description fd),
      (modelNumber fd). repeat split; assumption. }
  pose proof (client_server_disjoint _ Hpl) as Hnot.
  apply validateProductLine_valid in Hpl as (Hne & _ & Hlang).
  apply productLine_chars in Hlang as [Hchars _].
  set (sfd := mkFormData _ _ _ _ _) in Hfd.
  assert (Hin : In "Please select a valid product line"
                  (validationErrors formSubmissionSchema sfd)).
  { apply validationErrors_In. right. left. unfold sfd. simpl productLine.
    rewrite (sanitize_codeChars _ Hchars), productLine_path.
    apply truthy_spec in Hne. rewrite Hne.
    destruct (existsb (JS.eqb (productLine fd)) productLines) eqn:He;
      [|reflexivity].
    apply existsb_eqb_In in He. contradiction. }
  destruct (create_invalid req w sfd Hfd) as (Hr & Hd & _).
  { intros E. rewrite E in Hin. destruct Hin. }
  exists (validationErrors formSubmissionSchema sfd). auto.
Qed.

(** X10.  A form the client holds valid is never stored by the service:
    Create answers its body with the validation failure that names the
    product line and writes nothing, and the submit handler, given that
    answer, makes one request, shows [Submission Failed] with the server's
    message and leaves the submitted flag and the draft as they were. *)
Theorem valid_form_is_never_stored
  (respond : nat -> PostBody -> Outcome) s e w :
  isFormValid s = true ->
  allValid (formData s) = true ->
  (forall r,
      fst (createSubmission
             (wire toISOString (mkPost (formData s) (now e))) w) = inr r ->
      postOutcome failedText r
      = Some (respond (length (sent e)) (mkPost (formData s) (now e)))) ->
  (exists errs,
      fst (createSubmission
             (wire toISOString (mkPost (formData s) (now e))) w)
      = inr (mkResponse 400 (Failure "Validation failed" (Some errs) None))
      /\ In "Please select a valid product line" errs)
  /\ docs (snd (createSubmission
                  (wire toISOString (mkPost (formData s) (now e))) w))
     = docs w
  /\ fst (handleSubmit respond s e)
     = mkState (formData s) true (isSubmitted s) (isDraftSaved s)
         (hasDraft s) false
  /\ snd (handleSubmit respond s e)
     = toast ToastError "Submission Failed" "Validation failed"
         (post (mkPost (formData s) (now e)) e).
Proof.
  intros Hs Hv Hnet.
  destruct (create_valid_form (formData s) (now e) w Hv)
    as (errs & Hr & Hin & Hd).
  split; [exists errs; auto|]. split; [exact Hd|].
  specialize (Hnet _ Hr). unfold postOutcome in Hnet. simpl in Hnet.
  injection Hnet as Hnet. symmetry in Hnet.
  unfold handleSubmit. rewrite Hs.
  rewrite (submitForm_no_retry respond (formData s) defaultRetries e _ Hnet)
    by reflexivity.
  simpl. auto.
Qed.

End Wire.

Lemma valid_form_is_never_stored_witness :
  snd (handleSubmit
         (fun _ _ => Rejected validationRejected)
         (mkState filledForm true false false true false) freshEnv)
  = toast ToastError "Submission Failed" "Validation failed"
      (post (mkPost filledForm (now freshEnv)) freshEnv).
Proof.
  apply (valid_form_is_never_stored
           (fun _ => js "2023-11-14T22:13:20.000Z")
           (fun _ => "Request failed with status code 400")
           (fun _ _ => Rejected validationRejected)
           (mkState filledForm true false false true false) freshEnv
           emptyWorld); try reflexivity.
  intros r Hr. vm_compute in Hr. injection Hr as <-. reflexivity.
Defined.

End EndToEndFacts.

(** ** The service: what each request does to the store *)

Module ServiceFacts.

Import Server Samples Service.
Import ValidatorFacts SanitizeFacts ServerFacts ProductLine Create Listing
  ById.

Local Open Scope string_scope.

Section Ids.

Variable isValid : list N -> bool.
Variable castId : list N -> N.

(** Create either leaves the collection alone or adds one document, under
    the identifier generated, that passed the schema. *)
Lemma create_docs req w :
  (docs (snd (createSubmission req w)) = docs w
   /\ forall msg d,
       fst (createSubmission req w) <> inr (mkResponse 201 (Stored msg d)))
  \/ (exists fd,
         presentFields (sanitizeInput req) = Some fd
         /\ validationErrors formSubmissionSchema fd = []
         /\ docs w !! nextId w = None
         /\ fault w = None
         /\ fst (createSubmission req w)
            = inr (mkResponse 201
                     (Stored (Some "Form submitted successfully")
                        (mkSubmission (nextId w) fd (clock w))))
         /\ docs (snd (createSubmission req w))
            = <[nextId w := mkSubmission (nextId w) fd (clock w)]> (docs w)).
Proof.
  rewrite createSubmission_cases.
  destruct (presentFields (sanitizeInput req)) as [fd|] eqn:Hp;
    [|left; split; [reflexivity | intros msg d H; simpl in H; discriminate H]].
  cbv zeta.
  destruct (validationErrors formSubmissionSchema fd) eqn:He;
    [|left; split; [reflexivity | intros msg d H; simpl in H; discriminate H]].
  destruct (fault w) eqn:Hf; [left; split; [reflexivity | intros msg d H; simpl in H; discriminate H]|].
  destruct (docs w !! nextId w) eqn:Hd;
    [left; split; [reflexivity | intros msg d H; simpl in H; discriminate H]|].
  right. exists fd. simpl. repeat split; auto.
Qed.

Lemma create_nextId req w :
  (nextId w <= nextId (snd (createSubmission req w)))%N.
Proof.
  rewrite createSubmission_cases.
  destruct (presentFields (sanitizeInput req)); [|simpl; lia]. cbv zeta.
  destruct (validationErrors formSubmissionSchema i); [|simpl; lia].
  destruct (fault w); [simpl; lia|].
  destruct (docs w !! nextId w); simpl; lia.
Qed.

Lemma list_world qpage qlimit w :
  docs (snd (listSubmissions qpage qlimit w)) = docs w
  /\ nextId (snd (listSubmissions qpage qlimit w)) = nextId w.
Proof.
  rewrite listSubmissions_cases. cbv zeta.
  destruct (fault w); [simpl; auto|]. destruct (_ <? 0)%Z; simpl; auto.
Qed.

Lemma get_world id w :
  docs (snd (getSubmission isValid castId id w)) = docs w
  /\ nextId (snd (getSubmission isValid castId id w)) = nextId w.
Proof.
  rewrite getSubmission_cases. destruct (isValid id); [|auto].
  destruct (fault w); simpl; auto.
Qed.

Lemma delete_world id w :
  nextId (snd (deleteSubmission isValid castId id w)) = nextId w
  /\ (docs (snd (deleteSubmission isValid castId id w)) = docs w
      \/ docs (snd (deleteSubmission isValid castId id w))
         = delete (castId id) (docs w)).
Proof.
  rewrite deleteSubmission_cases. destruct (isValid id); [|auto].
  destruct (fault w); [simpl; auto|].
  destruct (docs w !! castId id); simpl; auto.
Qed.

Lemma serve_wellFormed r w :
  wellFormed w -> wellFormed (snd (serve isValid castId r w)).
Proof.
  intros Hw. destruct r as [b|qp ql|id|id]; simpl serve.
  - pose proof (create_nextId b w) as Hn.
    destruct (create_docs b w)
      as [[Hd _]|(fd & Hp & Hok & Hfree & Hf & _ & Hd)];
      intros k d; rewrite Hd.
    + intros H. destruct (Hw k d H) as (H1 & H2 & H3).
      repeat split; [exact H1 | lia | exact H3].
    + destruct (decide (nextId w = k)) as [<-|Hne].
      * rewrite lookup_insert_eq. intros H. injection H as <-.
        assert (Hs : nextId (snd (createSubmission b w)) = N.succ (nextId w)).
        { rewrite createSubmission_cases, Hp. cbv zeta.
          rewrite Hok, Hf, Hfree. reflexivity. }
        simpl. repeat split; [lia | exact Hok].
      * rewrite lookup_insert_ne by exact Hne. intros H.
        destruct (Hw k d H) as (H1 & H2 & H3).
        repeat split; [exact H1 | lia | exact H3].
  - destruct (list_world qp ql w) as [Hd Hn]. intros k d.
    rewrite Hd, Hn. apply Hw.
  - destruct (get_world id w) as [Hd Hn]. intros k d.
    rewrite Hd, Hn. apply Hw.
  - destruct (delete_world id w) as [Hn [Hd|Hd]]; intros k d;
      rewrite Hd, Hn; [apply Hw|].
    intros H. apply lookup_delete_Some in H as [_ H]. apply Hw, H.
Qed.

(** X11.  The schema is an invariant of the collection: in a store where
    every document is filed under its own identifier, below the identifiers
    still to come, and passes the schema, the same holds after any sequence
    of requests; it holds of the empty store. *)
Theorem service_keeps_store_wellFormed rs :
  forall w,
    wellFormed w -> wellFormed (snd (serveAll isValid castId rs w)).
Proof.
  induction rs as [|r rs IH]; intros w Hw; simpl; [exact Hw|].
  pose proof (serve_wellFormed r w Hw) as H1.
  destruct (serve isValid castId r w) as [a w1]. simpl in H1.
  specialize (IH w1 H1).
  destruct (serveAll isValid castId rs w1) as [answers w2]. exact IH.
Qed.

(** X12.  In a well-formed store that answers, Create of a body that passes
    the guard and the schema never fails: it answers 201, and the document
    is then found by Get under the identifier returned. *)
Theorem create_then_get req w fd id :
  wellFormed w -> fault w = None ->
  presentFields (sanitizeInput req) = Some fd ->
  validationErrors formSubmissionSchema fd = [] ->
  isValid id = true -> castId id = nextId w ->
  let doc := mkSubmission (nextId w) fd (clock w) in
  fst (createSubmission req w)
  = inr (mkResponse 201 (Stored (Some "Form submitted successfully") doc))
  /\ fst (getSubmission isValid castId id (snd (createSubmission req w)))
     = inr (mkResponse 200 (Stored None doc)).
Proof.
  intros Hw Hf Hp He Hv Hc doc.
  assert (Hfree : docs w !! nextId w = None).
  { destruct (docs w !! nextId w) as [d|] eqn:Hd; [|reflexivity].
    destruct (Hw _ _ Hd) as (_ & Hlt & _). lia. }
  rewrite getSubmission_cases, Hv.
  rewrite createSubmission_cases, Hp. cbv zeta. rewrite He, Hf, Hfree.
  simpl. rewrite Hc, lookup_insert_eq. auto.
Qed.

(** X13.  Deleting the same identifier again is answered 404 and changes
    nothing more; Get after the delete is answered 404 as well. *)
Theorem delete_twice id w :
  isValid id = true -> fault w = None ->
  let w1 := snd (deleteSubmission isValid castId id w) in
  fst (deleteSubmission isValid castId id w1) = inr notFound
  /\ docs (snd (deleteSubmission isValid castId id w1)) = docs w1
  /\ fst (getSubmission isValid castId id w1) = inr notFound.
Proof.
  intros Hv Hf w1.
  assert (H1 : docs w1 !! castId id = None /\ fault w1 = None).
  { unfold w1. rewrite deleteSubmission_cases, Hv, Hf.
    destruct (docs w !! castId id) eqn:Hd; simpl;
      [split; [apply lookup_delete_eq | congruence] | auto]. }
  destruct H1 as [Hnone Hf1].
  rewrite getSubmission_cases, deleteSubmission_cases, Hv, Hf1, Hnone.
  simpl. auto.
Qed.

(** X14.  Create writes only when it answers 201, and then adds exactly one
    document under a fresh identifier; with any other answer the collection
    is as it was. *)
Theorem create_footprint req w :
  (exists msg doc,
      fst (createSubmission req w) = inr (mkResponse 201 (Stored msg doc))
      /\ docs w !! _id doc = None
      /\ docs (snd (createSubmission req w)) = <[_id doc := doc]> (docs w)
      /\ size (docs (snd (createSubmission req w))) = S (size (docs w)))
  \/ (docs (snd (createSubmission req w)) = docs w
      /\ forall msg doc,
          fst (createSubmission req w)
          <> inr (mkResponse 201 (Stored msg doc))).
Proof.
  destruct (create_docs req w)
    as [H|(fd & _ & _ & Hfree & _ & Hr & Hd)]; [right; exact H|].
  left. eexists _, _. split; [exact Hr|]. simpl.
  split; [exact Hfree|]. split; [exact Hd|].
  rewrite Hd. apply map_size_insert_None, Hfree.
Qed.

(** X15.  Listing and Get never change the collection, whatever the query;
    Delete changes it only when it answers 200, and then removes exactly
    one document. *)
Theorem reads_never_write qpage qlimit id w :
  docs (snd (listSubmissions qpage qlimit w)) = docs w
  /\ docs (snd (getSubmission isValid castId id w)) = docs w
  /\ (fst (deleteSubmission isValid castId id w)
      = inr (mkResponse 200 (Done "Submission deleted successfully"))
      /\ S (size (docs (snd (deleteSubmission isValid castId id w))))
         = size (docs w)
      \/ fst (deleteSubmission isValid castId id w)
         <> inr (mkResponse 200 (Done "Submission deleted successfully"))
         /\ docs (snd (deleteSubmission isValid castId id w)) = docs w).
Proof.
  split; [apply list_world|]. split; [apply get_world|].
  rewrite deleteSubmission_cases. destruct (isValid id).
  2:{ right. split; [discriminate | reflexivity]. }
  destruct (fault w); [right; split; [discriminate | reflexivity]|].
  destruct (docs w !! castId id) as [d|] eqn:Hd.
  - left. split; [reflexivity|]. simpl.
    rewrite (map_size_delete_Some (castId id) (docs w)) by eauto.
    assert (Hne : size (docs w) <> 0)
      by (apply (map_size_ne_0_lookup_2 _ (castId id)); eauto).
    lia.
  - right. split; [discriminate | reflexivity].
Qed.

(** X20.  When the store fails, every handler that reaches it answers 500
    with its own fixed message and the text of the store's error, and the
    collection is untouched; a body that fails the guard or the schema is
    still answered 400, since both are checked before the store is
    called. *)
Theorem store_fault_answers m qpage qlimit id req w :
  fault w = Some m ->
  fst (listSubmissions qpage qlimit w)
  = inr (mkResponse 500
           (Failure "Failed to fetch submissions" None (Some m)))
  /\ (isValid id = true ->
      fst (getSubmission isValid castId id w)
      = inr (mkResponse 500
               (Failure "Failed to fetch submission" None (Some m)))
      /\ fst (deleteSubmission isValid castId id w)
         = inr (mkResponse 500
                  (Failure "Failed to delete submission" None (Some m)))
      /\ docs (snd (deleteSubmission isValid castId id w)) = docs w)
  /\ (forall fd,
         presentFields (sanitizeInput req) = Some fd ->
         validationErrors formSubmissionSchema fd = [] ->
         fst (createSubmission req w)
         = inr (mkResponse 500
                  (Failure "Failed to save form submission" None (Some m)))
         /\ docs (snd (createSubmission req w)) = docs w)
  /\ (forall fd,
         presentFields (sanitizeInput req) = Some fd ->
         validationErrors formSubmissionSchema fd <> [] ->
         fst (createSubmission req w)
         = inr (mkResponse 400
                  (Failure "Validation failed"
                     (Some (validationErrors formSubmissionSchema fd))
                     None))).
Proof.
  intros Hf. split; [|split; [|split]].
  - rewrite listSubmissions_cases, Hf. reflexivity.
  - intros Hv. rewrite getSubmission_cases, deleteSubmission_cases, Hv, Hf.
    simpl. auto.
  - intros fd Hp He. rewrite createSubmission_cases, Hp. cbv zeta.
    rewrite He, Hf. simpl. auto.
  - intros fd Hp He. apply create_invalid; assumption.
Qed.

End Ids.

End ServiceFacts.

(** ** Pages *)

Module Pages.

Import Server Samples Listing.

Local Open Scope string_scope.

Lemma page_of_length skip limit d :
  (0 <= skip)%Z -> (0 < limit)%Z ->
  Z.of_nat (length (page_of skip limit d))
  = Z.min limit (Z.max 0 (Z.of_nat (size d) - skip)).
Proof.
  intros Hs Hl. unfold page_of.
  destruct (Z.eqb_spec limit 0) as [E|_]; [lia|].
  rewrite length_take, length_drop, sorted_length. lia.
Qed.

Lemma ceilDiv_spec a b :
  (0 < b)%Z -> (b * (ceilDiv a b - 1) < a <= b * ceilDiv a b)%Z.
Proof.
  intros Hb. unfold ceilDiv.
  pose proof (Z.mul_div_le (- a) b Hb).
  pose proof (Z.mul_succ_div_gt (- a) b Hb). nia.
Qed.

(** X16.  For a page and a limit of at least 1, [hasMore] says exactly that
    the current page is before the last one: [hasMore = (current < total)];
    and [total] pages of [limit] records are just enough for the store. *)
Theorem hasMore_iff_before_last qpage qlimit w data pg :
  (1 <= parseInt_or qpage 1)%Z -> (1 <= parseInt_or qlimit 10)%Z ->
  fst (listSubmissions qpage qlimit w)
  = inr (mkResponse 200 (Listing data pg)) ->
  hasMore pg = (current pg <? total pg)%Z
  /\ (parseInt_or qlimit 10 * (total pg - 1) < Z.of_nat (size (docs w))
      <= parseInt_or qlimit 10 * total pg)%Z
  /\ (Z.of_nat (length data) <= parseInt_or qlimit 10)%Z.
Proof.
  intros Hp Hl. rewrite listSubmissions_cases. cbv zeta.
  set (page := parseInt_or qpage 1) in *.
  set (limit := parseInt_or qlimit 10) in *.
  destruct (fault w); [discriminate|].
  destruct (Z.ltb_spec ((page - 1) * limit) 0) as [Hneg|Hskip];
    [discriminate|].
  simpl. intros H. injection H as <- <-. simpl.
  pose proof (page_of_length ((page - 1) * limit) limit (docs w) Hskip
                ltac:(lia)) as Hlen.
  pose proof (ceilDiv_spec (Z.of_nat (size (docs w))) limit ltac:(lia))
    as Hceil.
  split; [|split; [exact Hceil | lia]].
  rewrite Hlen.
  set (T := Z.of_nat (size (docs w))) in *.
  set (c := ceilDiv T limit) in *.
  destruct (Z.ltb_spec page c) as [Hpc|Hpc].
  - apply Z.ltb_lt. nia.
  - apply Z.ltb_ge. nia.
Qed.


Lemma parseInt_or_nonzero q d : d <> 0%Z -> parseInt_or q d <> 0%Z.
Proof.
  intros Hd. unfold parseInt_or. destruct q as [s|]; [|exact Hd].
  destruct (parseInt s) as [[|p|p]|]; try exact Hd; discriminate.
Qed.

(** X18.  Whatever the query strings, neither the page nor the limit used
    is 0 (an absent, zero or non-numeric parameter counts as its default),
    so the page total never divides by zero.  The parameters are not checked
    further: a negative page with a positive limit is answered 500, and a
    negative limit gives a listing whose page total is not positive. *)
Theorem query_parameters qpage qlimit w :
  parseInt_or qpage 1 <> 0%Z /\ parseInt_or qlimit 10 <> 0%Z
  /\ (forall s, parseInt s = None \/ parseInt s = Some 0%Z ->
                parseInt_or (Some s) 1 = 1%Z
                /\ parseInt_or (Some s) 10 = 10%Z)
  /\ (fault w = None ->
      (parseInt_or qpage 1 < 0)%Z -> (0 < parseInt_or qlimit 10)%Z ->
      exists m,
        fst (listSubmissions qpage qlimit w)
        = inr (mkResponse 500
                 (Failure "Failed to fetch submissions" None (Some m)))
        /\ calls (snd (listSubmissions qpage qlimit w))
           = CallFind ((parseInt_or qpage 1 - 1) * parseInt_or qlimit 10)
               (parseInt_or qlimit 10) :: calls w)
  /\ (forall data pg,
         (parseInt_or qlimit 10 < 0)%Z ->
         fst (listSubmissions qpage qlimit w)
         = inr (mkResponse 200 (Listing data pg)) ->
         (total pg <= 0)%Z).
Proof.
  split; [apply parseInt_or_nonzero; discriminate|].
  split; [apply parseInt_or_nonzero; discriminate|].
  split; [|split].
  - intros s [H|H]; unfold parseInt_or; rewrite H; auto.
  - intros Hf Hp Hl. rewrite listSubmissions_cases, Hf. cbv zeta.
    destruct (Z.ltb_spec ((parseInt_or qpage 1 - 1) * parseInt_or qlimit 10)
                0) as [_|Hge]; [|nia].
    eexists. split; reflexivity.
  - intros data pg Hl. rewrite listSubmissions_cases. cbv zeta.
    destruct (fault w); [discriminate|].
    destruct (_ <? 0)%Z; [discriminate|]. simpl.
    intros H. injection H as _ <-. simpl. unfold ceilDiv.
    set (T := Z.of_nat (size (docs w))).
    assert (HT : (0 <= T)%Z) by (unfold T; lia).
    assert (Hq : (0 <= - T / parseInt_or qlimit 10)%Z).
    { pose proof (Z.div_opp_opp T (- parseInt_or qlimit 10) ltac:(lia)) as E.
      rewrite Z.opp_involutive in E. rewrite E.
      apply Z.div_pos; lia. }
    lia.
Qed.

End Pages.

(** ** What the sanitizer guarantees *)

Module Clean.

Import Server Samples Service.
Import ValidatorFacts SanitizeFacts ServerFacts Create.

Local Open Scope string_scope.









End Clean.

(** ** Concrete runs of the service *)

Module ServiceRuns.

Import Server Samples Service ServiceFacts Pages Listing.

Local Open Scope string_scope.

Lemma emptyWorld_wellFormed : wellFormed emptyWorld.
Proof. intros k d H. simpl in H. rewrite lookup_empty in H. discriminate. Qed.

Lemma service_keeps_store_wellFormed_witness :
  wellFormed
    (snd (serveAll hex24 hexNumber
            [Create goodBody; Create clientBody; ListPage None None;
             DeleteById (js "000000000000000000000001"); Create goodBody]
            emptyWorld)).
Proof.
  apply (service_keeps_store_wellFormed hex24 hexNumber).
  exact emptyWorld_wellFormed.
Defined.

Lemma create_then_get_witness :
  fst (getSubmission hex24 hexNumber (js "000000000000000000000001")
         (snd (createSubmission goodBody emptyWorld)))
  = inr (mkResponse 200 (Stored None goodDoc)).
Proof.
  apply (create_then_get hex24 hexNumber goodBody emptyWorld (fields goodDoc)
           (js "000000000000000000000001"));
    try exact emptyWorld_wellFormed; vm_compute; reflexivity.
Defined.

Lemma delete_twice_witness :
  fst (deleteSubmission hex24 hexNumber (js "00000000000000000000000c")
         (snd (deleteSubmission hex24 hexNumber
                 (js "00000000000000000000000c") twelveWorld)))
  = inr notFound.
Proof.
  apply (delete_twice hex24 hexNumber (js "00000000000000000000000c")
           twelveWorld); reflexivity.
Defined.

Lemma store_fault_answers_witness :
  fst (listSubmissions None None faultyWorld)
  = inr (mkResponse 500
           (Failure "Failed to fetch submissions" None
              (Some "connection timed out")))
  /\ fst (createSubmission goodBody faultyWorld)
     = inr (mkResponse 500
              (Failure "Failed to save form submission" None
                 (Some "connection timed out"))).
Proof.
  destruct (store_fault_answers hex24 hexNumber "connection timed out"
              None None (js "00000000000000000000000c") goodBody faultyWorld
              eq_refl) as (Hl & _ & Hc & _).
  split; [exact Hl|].
  apply (Hc (fields goodDoc)); vm_compute; reflexivity.
Defined.

Lemma hasMore_iff_before_last_witness :
  exists data pg,
    fst (listSubmissions (Some (js "2")) (Some (js "5")) twelveWorld)
    = inr (mkResponse 200 (Listing data pg))
    /\ hasMore pg = (current pg <? total pg)%Z.
Proof.
  eexists _, _. split; [vm_compute; reflexivity|].
  apply (hasMore_iff_before_last (Some (js "2")) (Some (js "5")) twelveWorld
           (take 5 (drop 5 (sorted (docs twelveWorld)))));
    vm_compute; congruence.
Defined.


Lemma query_parameters_witness :
  exists m,
    fst (listSubmissions (Some (js "-1")) None twelveWorld)
    = inr (mkResponse 500
             (Failure "Failed to fetch submissions" None (Some m)))
    /\ calls (snd (listSubmissions (Some (js "-1")) None twelveWorld))
       = [CallFind (-20) 10].
Proof.
  apply (proj2 (proj2 (proj2 (query_parameters (Some (js "-1")) None
                                twelveWorld))));
    vm_compute; reflexivity.
Defined.

End ServiceRuns.

(** ** Numbers in the query string: written by the client, read by the
       service *)

Module QueryNumbers.

Import ApiReads ValidatorFacts.

Local Open Scope N_scope.














End QueryNumbers.

(** ** The read and delete wrappers in front of the service *)

Module ReadsEndToEnd.

Import Server Samples ApiReads.
Import Listing ById QueryNumbers.

Local Open Scope string_scope.

Section Ids.

Variable isValid : list N -> bool.
Variable castId : list N -> N.
Variable w : World.

Let getList := Wired.getList w.
Let getOne := Wired.getOne isValid castId w.
Let deleteOne := Wired.deleteOne isValid castId w.



End Ids.


End ReadsEndToEnd.
